(** * create-cloudflare deploy step and mTLS certificate lookup

    A shallow embedding of [packages/create-cloudflare/src/deploy.ts]
    ([hasBinding], [isDeployable], [runDeploy], [maybeOpenBrowser]) and of the
    by-name certificate lookup exercised by the wrangler mTLS certificate
    tests, together with the properties stated about them.

    Conventions.  JavaScript strings are modelled as [string]; a character is
    an 8-bit [ascii], so the development speaks about strings whose code units
    are below 256.  Values produced by [JSON.parse], [jsonc-parser] and
    [TOML.parse] are modelled by [JSValue]; an object is the list of its own
    enumerable properties in [Object.keys] order. *)

From Stdlib Require Import List Bool Arith Lia ZArith.
From Stdlib Require Import Ascii String DecimalString.
Import ListNotations.

Local Open Scope string_scope.
Local Open Scope list_scope.

(** ** JavaScript values *)

Module JS.

(** The values a JSON, JSONC or TOML parser hands back, plus [undefined].
    The code never looks inside a number; an integer stands for it. *)
#[local] Unset Elimination Schemes.
Inductive JSValue : Type :=
| JUndefined
| JNull
| JBool (b : bool)
| JNumber (n : Z)
| JString (s : string)
| JArray (elems : list JSValue)
| JObject (props : list (string * JSValue)).
#[local] Set Elimination Schemes.

(** Induction principle that reaches the values nested in arrays and
    objects. *)
Section JSValue_induction.
Variable P : JSValue -> Prop.
Hypothesis Hundef : P JUndefined.
Hypothesis Hnull : P JNull.
Hypothesis Hbool : forall b, P (JBool b).
Hypothesis Hnum : forall n, P (JNumber n).
Hypothesis Hstr : forall s, P (JString s).
Hypothesis Harr : forall elems, Forall P elems -> P (JArray elems).
Hypothesis Hobj :
  forall props, Forall (fun kv => P (snd kv)) props -> P (JObject props).

Fixpoint JSValue_nested_ind (v : JSValue) : P v :=
  match v with
  | JUndefined => Hundef
  | JNull => Hnull
  | JBool b => Hbool b
  | JNumber n => Hnum n
  | JString s => Hstr s
  | JArray elems =>
      Harr elems
        ((fix go (es : list JSValue) : Forall P es :=
            match es with
            | [] => Forall_nil P
            | e :: es' => Forall_cons e (JSValue_nested_ind e) (go es')
            end) elems)
  | JObject props =>
      Hobj props
        ((fix go (ps : list (string * JSValue))
            : Forall (fun kv => P (snd kv)) ps :=
            match ps with
            | [] => Forall_nil _
            | kv :: ps' =>
                Forall_cons kv (JSValue_nested_ind (snd kv)) (go ps')
            end) props)
  end.
End JSValue_induction.

(** [typeof v === "object"]: true of objects, arrays and [null]. *)
Definition typeof_object (v : JSValue) : bool :=
  match v with
  | JNull | JArray _ | JObject _ => true
  | _ => false
  end.

(** [v === null] *)
Definition is_null (v : JSValue) : bool :=
  match v with
  | JNull => true
  | _ => false
  end.

(** [v === null || v === undefined]. *)
Definition nullish (v : JSValue) : bool :=
  match v with
  | JUndefined | JNull => true
  | _ => false
  end.

(** The property key under which an array stores its [i]-th element: the
    decimal numeral of [i]. *)
Definition index_key (i : nat) : string :=
  NilEmpty.string_of_uint (Nat.to_uint i).

(** Own-property lookup in an object's property list. *)
Fixpoint lookup (key : string) (props : list (string * JSValue))
  : option JSValue :=
  match props with
  | [] => None
  | (k, v) :: rest => if k =? key then Some v else lookup key rest
  end.

(** *** String primitives *)

Definition LF : ascii := "010"%char.
Definition CR : ascii := "013"%char.

(** [s.startsWith(pre)] *)
Fixpoint startsWith (pre s : string) : bool :=
  match pre, s with
  | EmptyString, _ => true
  | String _ _, EmptyString => false
  | String a pre', String b s' => (a =? b)%char && startsWith pre' s'
  end.

(** [s.slice(n)] for [0 <= n]. *)
Fixpoint drop (n : nat) (s : string) : string :=
  match n, s with
  | O, _ => s
  | S _, EmptyString => EmptyString
  | S k, String _ s' => drop k s'
  end.

(** [s.endsWith(suf)]: the last [length suf] characters of [s] are [suf]. *)
Definition endsWith (s suf : string) : bool :=
  (String.length suf <=? String.length s)%nat
  && (drop (String.length s - String.length suf) s =? suf).

(** Puts [c] in front of the piece being collected. *)
Definition consHead (c : ascii) (pieces : list string) : list string :=
  match pieces with
  | [] => [String c EmptyString]
  | p :: ps => String c p :: ps
  end.

(** [s.split(sep)] for a non-empty separator [sep], scanning left to right.
    [skip] counts the characters of a separator occurrence that are still to
    be passed over. *)
Fixpoint split_from (sep : string) (skip : nat) (s : string) : list string :=
  match s with
  | EmptyString => [EmptyString]
  | String c s' =>
      match skip with
      | S k => split_from sep k s'
      | O =>
          if startsWith sep s
          then EmptyString :: split_from sep (String.length sep - 1) s'
          else consHead c (split_from sep 0 s')
      end
  end.

Definition split (sep s : string) : list string := split_from sep 0 s.

(** [pieces.join(sep)] *)
Definition join (sep : string) (pieces : list string) : string :=
  String.concat sep pieces.

(** [xs.slice(-n)]: the last [n] elements, or all of them when there are
    fewer. *)
Definition slice_last {A : Type} (n : nat) (xs : list A) : list A :=
  skipn (List.length xs - n) xs.

(** [Boolean(s)] for a string: the empty string is the only falsy one. *)
Definition truthy (s : string) : bool :=
  match s with
  | EmptyString => false
  | String _ _ => true
  end.

(** [s.replace(/\r\n/g, "\n")] *)
Fixpoint replace_crlf (s : string) : string :=
  match s with
  | EmptyString => EmptyString
  | String c s' =>
      match s' with
      | String d s'' =>
          if (c =? CR)%char && (d =? LF)%char
          then String LF (replace_crlf s'')
          else String c (replace_crlf s')
      | EmptyString => String c EmptyString
      end
  end.

(** [sep] occurs somewhere in [s]. *)
Fixpoint occurs (sep s : string) : bool :=
  startsWith sep s
  || match s with
     | EmptyString => false
     | String _ s' => occurs sep s'
     end.

(** A separator none of whose occurrences can start before the end of a
    separator-free prefix: "://" and "." are such separators. *)
Definition BorderFree (sep : string) : Prop :=
  forall p h,
    occurs sep p = false ->
    startsWith sep (p ++ sep ++ h)%string = true ->
    p = EmptyString.

(** *** The regular expression [/https:\/\/.+\.(pages|workers)\.dev/] *)

(** Characters the regular expression's [.] does not match.  Of the four
    ECMAScript line terminators, LF and CR are the ones below 256. *)
Definition isLineTerminator (c : ascii) : bool :=
  (c =? LF)%char || (c =? CR)%char.

(** [\.(pages|workers)\.dev] tried at the start of [s]; the matched text. *)
Definition domain_at (s : string) : option string :=
  if startsWith ".pages.dev" s then Some ".pages.dev"
  else if startsWith ".workers.dev" s then Some ".workers.dev"
  else None.

(** [.*\.(pages|workers)\.dev] tried at the start of [s].  The star is greedy:
    taking one more character is tried first, and the domain alternative is
    tried at the current position only after that has failed. *)
Fixpoint dotStar_domain (s : string) : option string :=
  match s with
  | EmptyString => None
  | String c s' =>
      match (if isLineTerminator c then None else dotStar_domain s') with
      | Some m => Some (String c m)
      | None => domain_at s
      end
  end.

(** [.+\.(pages|workers)\.dev] tried at the start of [s]. *)
Definition dotPlus_domain (s : string) : option string :=
  match s with
  | EmptyString => None
  | String c s' =>
      if isLineTerminator c then None
      else option_map (String c) (dotStar_domain s')
  end.

(** The whole pattern tried at the start of [s]. *)
Definition deployedUrlRegex_at (s : string) : option string :=
  if startsWith "https://" s
  then option_map (append "https://") (dotPlus_domain (drop 8 s))
  else None.

(** [s.match(deployedUrlRegex)]: the pattern is tried at every start
    position from the left; the result is element 0 of the match array, or
    [None] for [null]. *)
Fixpoint deployedUrlRegex_match (s : string) : option string :=
  match deployedUrlRegex_at s with
  | Some m => Some m
  | None =>
      match s with
      | EmptyString => None
      | String _ s' => deployedUrlRegex_match s'
      end
  end.

(** *** Exceptions *)

Inductive Exn : Type :=
| Error (message : string)
| TypeError
| SyntaxError
| HostError (message : string).

Inductive Result (A : Type) : Type :=
| Ok (a : A)
| Throw (e : Exn).
Arguments Ok {A} a.
Arguments Throw {A} e.

Definition rbind {A B : Type} (r : Result A) (k : A -> Result B) : Result B :=
  match r with
  | Ok a => k a
  | Throw e => Throw e
  end.

(** *** Property access *)

(** [v.name] for one of the property names read in deploy.ts ("type",
    "targets", "url"): none of them is an index, "length" or a prototype
    member, so only an object can have it.  Reading a property of [null] or
    [undefined] throws. *)
Definition getNamed (v : JSValue) (name : string) : Result JSValue :=
  match v with
  | JUndefined | JNull => Throw TypeError
  | JObject props =>
      Ok (match lookup name props with Some x => x | None => JUndefined end)
  | JArray _ | JString _ | JBool _ | JNumber _ => Ok JUndefined
  end.

(** [v[0]] for a [v] that is neither [null] nor [undefined]. *)
Definition getFirst (v : JSValue) : JSValue :=
  match v with
  | JArray (x :: _) => x
  | JString (String c _) => JString (String c EmptyString)
  | JObject props =>
      match lookup "0" props with Some x => x | None => JUndefined end
  | _ => JUndefined
  end.

End JS.

Import JS.

(** ** The deployability gate: [hasBinding] *)

Module Gate.

(** [key === "binding" || key === "bindings"] *)
Definition isBindingKey (key : string) : bool :=
  (key =? "binding") || (key =? "bindings").

(** [hasBinding], deploy.ts lines 178-193.  After the guard of lines
    179-181 the node is an object or an array.  The
    [for ... of Object.keys(node)] loop is the inner [fix]; every iteration
    ends in [continue] (an "assets" key) or in a [return].  For an array the
    keys are the index numerals and [node[key]] is the element at that index;
    for an object [node[key]] is the value stored under the key being
    visited. *)
Fixpoint hasBinding (node : JSValue) : bool :=
  if negb (typeof_object node) || is_null node then false
  else
    match node with
    | JObject props =>
        (fix loop (ps : list (string * JSValue)) : bool :=
           match ps with
           | [] => false
           | (key, value) :: rest =>
               if key =? "assets" then loop rest
               else if isBindingKey key then true
               else hasBinding value
           end) props
    | JArray elems =>
        (fix loop (i : nat) (es : list JSValue) : bool :=
           match es with
           | [] => false
           | value :: rest =>
               if index_key i =? "assets" then loop (S i) rest
               else if isBindingKey (index_key i) then true
               else hasBinding value
           end) 0%nat elems
    | JUndefined | JNull | JBool _ | JNumber _ | JString _ => false
    end.

(** The two loops of [hasBinding] as functions of their own. *)
Fixpoint hasBinding_props (ps : list (string * JSValue)) : bool :=
  match ps with
  | [] => false
  | (key, value) :: rest =>
      if key =? "assets" then hasBinding_props rest
      else if isBindingKey key then true
      else hasBinding value
  end.

Fixpoint hasBinding_elems (i : nat) (es : list JSValue) : bool :=
  match es with
  | [] => false
  | value :: rest =>
      if index_key i =? "assets" then hasBinding_elems (S i) rest
      else if isBindingKey (index_key i) then true
      else hasBinding value
  end.

(** *** The descent the traversal follows, stated independently of the code *)

(** The first key of a mapping that is left once "assets" keys are skipped,
    with its value. *)
Fixpoint firstRemaining (ps : list (string * JSValue))
  : option (string * JSValue) :=
  match ps with
  | [] => None
  | (k, v) :: rest =>
      if k =? "assets" then firstRemaining rest else Some (k, v)
  end.

(** A binding key is reachable by the first-key-only descent: the descent
    starts at the root; at a mapping it takes the first remaining key, which
    either is a binding key or leads on into its value; at a sequence it takes
    the first element. *)
Inductive Reachable : JSValue -> Prop :=
| Reach_here : forall props k v,
    firstRemaining props = Some (k, v) ->
    k = "binding" \/ k = "bindings" ->
    Reachable (JObject props)
| Reach_down : forall props k v,
    firstRemaining props = Some (k, v) ->
    Reachable v ->
    Reachable (JObject props)
| Reach_first : forall v rest,
    Reachable v ->
    Reachable (JArray (v :: rest)).

(** Some key named "binding" or "bindings" occurs in the tree at a place that
    is not inside the value of an "assets" key. *)
Fixpoint bindingOutsideAssets (t : JSValue) : bool :=
  match t with
  | JObject props =>
      (fix go (ps : list (string * JSValue)) : bool :=
         match ps with
         | [] => false
         | (k, v) :: rest =>
             isBindingKey k
             || (if k =? "assets" then false else bindingOutsideAssets v)
             || go rest
         end) props
  | JArray elems =>
      (fix go (es : list JSValue) : bool :=
         match es with
         | [] => false
         | v :: rest => bindingOutsideAssets v || go rest
         end) elems
  | _ => false
  end.

(** Some key named "binding" or "bindings" occurs anywhere in the tree. *)
Fixpoint bindingAnywhere (t : JSValue) : bool :=
  match t with
  | JObject props =>
      (fix go (ps : list (string * JSValue)) : bool :=
         match ps with
         | [] => false
         | (k, v) :: rest => isBindingKey k || bindingAnywhere v || go rest
         end) props
  | JArray elems =>
      (fix go (es : list JSValue) : bool :=
         match es with
         | [] => false
         | v :: rest => bindingAnywhere v || go rest
         end) elems
  | _ => false
  end.

(** A node that is neither a mapping nor a sequence. *)
Definition isLeaf (t : JSValue) : bool :=
  match t with
  | JObject _ | JArray _ => false
  | _ => true
  end.

End Gate.

Import Gate.

(** ** The deployment context, the collaborators and the effect monad *)

Module Ctx.

(** The fields of [C3Context] that deploy.ts reads or writes.  [account_id]
    is [ctx.account?.id]; [deployment_url] is [ctx.deployment.url], absent
    until a deployment has run. *)
Record C3Context : Type := {
  template_platform : string;
  template_deployScript : option string;
  project_path : string;
  account_id : option string;
  commitMessage : option string;
  deployment_url : option string;
  args_open : option bool
}.

(** [ctx.deployment.url = u] *)
Definition set_deployment_url (ctx : C3Context) (u : string) : C3Context :=
  {| template_platform := template_platform ctx;
     template_deployScript := template_deployScript ctx;
     project_path := project_path ctx;
     account_id := account_id ctx;
     commitMessage := commitMessage ctx;
     deployment_url := Some u;
     args_open := args_open ctx |}.

(** What a run does to the outside world and to the deployment record, in
    the order it happens. *)
Inductive Event : Type :=
| EvWranglerJsonExists
| EvReadWranglerJson
| EvReadWranglerToml
| EvRunCommand (cmd : list string) (cwd : string)
    (env : list (string * string))
| EvReadFile (path : string)
| EvSetUrl (url : string)
| EvPoll (url : string)
| EvOpenInBrowser (url : string).

(** The imported helpers deploy.ts calls, as functions of what they are
    given.  [runCommand] either rejects or leaves a file system behind, of
    which only reading a path matters here.  [isInsideGitRepo] and
    [mkdtemp] give what the two helpers awaited before the deploy command
    return; a run in which one of them rejects ends there, before the
    command, and is not described by this record. *)
Record Host : Type := {
  wranglerJsonExists : C3Context -> bool;
  readWranglerJson : C3Context -> Result string;
  readWranglerToml : C3Context -> Result string;
  jsoncParse : string -> JSValue;
  TOML_parse : string -> Result JSValue;
  detectPackageManager : string * string;
  isInsideGitRepo : string -> bool;
  tmpdir : string;
  mkdtemp : string -> string;
  path_join : string -> string -> string;
  runCommand :
    list string -> string -> list (string * string) ->
    Result (string -> option string);
  JSON_parse : string -> Result JSValue;
  JSON_stringify : string -> string;
  poll : string -> bool
}.

Record State : Type := {
  st_ctx : C3Context;
  st_log : list Event
}.

(** Computations that read and write the context, leave a log and may
    throw.  A throw keeps the state reached so far, as a JavaScript exception
    keeps the mutations made before it. *)
Definition M (A : Type) : Type := State -> Result A * State.

Definition ret {A : Type} (a : A) : M A := fun s => (Ok a, s).

Definition bind {A B : Type} (c : M A) (k : A -> M B) : M B :=
  fun s =>
    match c s with
    | (Ok a, s') => k a s'
    | (Throw e, s') => (Throw e, s')
    end.

Definition throw {A : Type} (e : Exn) : M A := fun s => (Throw e, s).

Definition lift {A : Type} (r : Result A) : M A := fun s => (r, s).

Definition get_ctx : M C3Context := fun s => (Ok (st_ctx s), s).

Definition emit (e : Event) : M unit :=
  fun s => (Ok tt, {| st_ctx := st_ctx s; st_log := st_log s ++ [e] |}).

(** [ctx.deployment.url = u], logged. *)
Definition assign_url (u : string) : M unit :=
  fun s =>
    (Ok tt, {| st_ctx := set_deployment_url (st_ctx s) u;
               st_log := st_log s ++ [EvSetUrl u] |}).

(** [try { body } catch { handler }] *)
Definition try_catch {A : Type} (body : M A) (handler : M A) : M A :=
  fun s =>
    match body s with
    | (Ok a, s') => (Ok a, s')
    | (Throw _, s') => handler s'
    end.

End Ctx.

Import Ctx.

Declare Scope js_scope.
Delimit Scope js_scope with js.
Notation "x <- c ;; k" := (bind c (fun x => k))
  (at level 61, c at next level, right associativity) : js_scope.
Notation "c ;;; k" := (bind c (fun _ => k))
  (at level 61, right associativity) : js_scope.
Local Open Scope js_scope.

(** ** [isDeployable] and [readWranglerConfig] *)

Module Deployable.

(** [readWranglerConfig], deploy.ts lines 84-91. *)
Definition readWranglerConfig (h : Host) : M JSValue :=
  ctx <- get_ctx ;;
  emit EvWranglerJsonExists ;;;
  if wranglerJsonExists h ctx then
    emit EvReadWranglerJson ;;;
    wranglerJsonStr <- lift (readWranglerJson h ctx) ;;
    ret (jsoncParse h wranglerJsonStr)
  else
    emit EvReadWranglerToml ;;;
    wranglerTomlStr <- lift (readWranglerToml h ctx) ;;
    lift (TOML_parse h (replace_crlf wranglerTomlStr)).

(** [isDeployable], deploy.ts lines 76-82. *)
Definition isDeployable (h : Host) : M bool :=
  ctx <- get_ctx ;;
  if template_platform ctx =? "pages" then ret true
  else
    wranglerConfig <- readWranglerConfig h ;;
    ret (negb (hasBinding wranglerConfig)).

End Deployable.

Import Deployable.

(** ** [runDeploy] and [maybeOpenBrowser] *)

Module Deploy.

Definition failed_to_find : string := "Failed to find deployment url.".
Definition failed_to_read_account : string :=
  "Failed to read Cloudflare account.".

(** [entries.find((entry) => entry.type === ty)]; the callback reads a
    property of each entry it visits.  [JUndefined] when nothing is found. *)
Fixpoint find_type (ty : string) (entries : list JSValue) : Result JSValue :=
  match entries with
  | [] => Ok JUndefined
  | entry :: rest =>
      rbind (getNamed entry "type") (fun t =>
        match t with
        | JString s => if s =? ty then Ok entry else find_type ty rest
        | _ => find_type ty rest
        end)
  end.

(** [a?.name] *)
Definition opt_named (a : JSValue) (name : string) : Result JSValue :=
  if nullish a then Ok JUndefined else getNamed a name.

(** [a?.[0]] *)
Definition opt_first (a : JSValue) : JSValue :=
  if nullish a then JUndefined else getFirst a.

(** The [url] constant of lines 141-143:
    [entries.find(deploy)?.targets?.[0] ?? entries.find(pages-deploy)?.url].
    The right operand of [??] is evaluated only when the left one is [null]
    or [undefined]. *)
Definition extractUrl (entries : list JSValue) : Result JSValue :=
  rbind (find_type "deploy" entries) (fun d =>
  rbind (opt_named d "targets") (fun targets =>
  let first := opt_first targets in
  if nullish first then
    rbind (find_type "pages-deploy" entries) (fun p => opt_named p "url")
  else Ok first)).

(** [url?.match(deployedUrlRegex)], lines 144-145: [None] stands for a falsy
    result ([undefined] or [null]); only a string has a [match] method. *)
Definition matchUrl (url : JSValue) : Result (option string) :=
  match url with
  | JUndefined | JNull => Ok None
  | JString s => Ok (deployedUrlRegex_match s)
  | JBool _ | JNumber _ | JArray _ | JObject _ => Throw TypeError
  end.

(** Lines 141-150 up to the assignment: the URL to store, or the exception
    thrown inside the [try] block. *)
Definition findDeployedUrl (entries : list JSValue) : Result string :=
  rbind (extractUrl entries) (fun url =>
  rbind (matchUrl url) (fun deployedUrlMatch =>
  match deployedUrlMatch with
  | Some m => Ok m
  | None => Throw (Error failed_to_find)
  end)).

(** What lines 141-153 make of the parsed entries: the URL that is stored,
    or the one error the [catch] clause rethrows for whatever was thrown. *)
Definition extractDeployedUrl (entries : list JSValue) : Result string :=
  match findDeployedUrl entries with
  | Ok m => Ok m
  | Throw _ => Throw (Error failed_to_find)
  end.

(** [lines.map((entry) => JSON.parse(entry))] *)
Fixpoint parse_entries (h : Host) (lines : list string)
  : Result (list JSValue) :=
  match lines with
  | [] => Ok []
  | l :: rest =>
      rbind (JSON_parse h l) (fun v =>
      rbind (parse_entries h rest) (fun vs => Ok (v :: vs)))
  end.

(** [contents.split("\n").filter(Boolean)] *)
Definition output_lines (contents : string) : list string :=
  filter truthy (split (String LF EmptyString) contents).

(** Modelled from the spec: [readFile] of helpers/files is imported, not
    defined, in deploy.ts.  Following section 4.4, a capture file that is
    absent makes the read fail with an exception raised inside the [try]
    block; otherwise the contents are returned. *)
Definition readFile (fs : string -> option string) (path : string)
  : M string :=
  emit (EvReadFile path) ;;;
  match fs path with
  | Some contents => ret contents
  | None => throw (HostError "readFile")
  end.

(** Lines 157-160: the body of the [if], which drops the SHA-1 label of a
    pages.dev preview URL.  Destructuring a [split] result with a single piece
    leaves [hostname] undefined, and calling [hostname.split] then throws. *)
Definition removeSha1 (url : string) : Result string :=
  match split "://" url with
  | proto :: hostname :: _ =>
      let hostnameWithoutSHA1 :=
        join "." (slice_last 3 (split "." hostname)) in
      Ok (proto ++ "://" ++ hostnameWithoutSHA1)%string
  | _ => Throw TypeError
  end.

(** Lines 155-161 as a function of the URL found: the normalization step. *)
Definition normalizePagesUrl (url : string) : Result string :=
  if endsWith url ".pages.dev" then removeSha1 url else Ok url.

(** The command line of lines 100-114. *)
Definition deployCmd (h : Host) (ctx : C3Context) : list string :=
  let '(npm, pm) := detectPackageManager h in
  let baseDeployCmd :=
    [npm; "run";
     match template_deployScript ctx with Some s => s | None => "deploy" end] in
  let insideGitRepo := isInsideGitRepo h (project_path ctx) in
  baseDeployCmd ++
  match commitMessage ctx with
  | Some msg =>
      if (template_platform ctx =? "pages") && truthy msg && negb insideGitRepo
      then (if pm =? "npm" then ["--"] else [])
           ++ ["--commit-message"; JSON_stringify h msg]
      else []
  | None => []
  end.

(** Lines 141-150: the URL found in the entries is stored in the context,
    or the block throws. *)
Definition storeDeployedUrl (entries : list JSValue) : M unit :=
  m <- lift (findDeployedUrl entries) ;;
  assign_url m.

(** The [try] block of lines 134-150. *)
Definition readDeployedUrl (h : Host) (fs : string -> option string)
    (outputFile : string) : M unit :=
  contents <- readFile fs outputFile ;;
  entries <- lift (parse_entries h (output_lines contents)) ;;
  storeDeployedUrl entries.

(** The output-capture path of lines 116-119, for a [mkdtemp] that
    returns. *)
Definition outputFile (h : Host) : string :=
  path_join h
    (mkdtemp h (path_join h (tmpdir h) "c3-wrangler-deploy-"))
    "output.json".

(** The environment handed to the deploy command, lines 123-127. *)
Definition deployEnv (h : Host) (id : string) : list (string * string) :=
  [("CLOUDFLARE_ACCOUNT_ID", id); ("NODE_ENV", "production");
   ("WRANGLER_OUTPUT_FILE_PATH", outputFile h)].

(** [runDeploy], deploy.ts lines 93-162. *)
Definition runDeploy (h : Host) : M unit :=
  ctx <- get_ctx ;;
  match account_id ctx with
  | None => throw (Error failed_to_read_account)
  | Some id =>
    if negb (truthy id) then throw (Error failed_to_read_account)
    else
      emit (EvRunCommand (deployCmd h ctx) (project_path ctx)
              (deployEnv h id)) ;;;
      fs <- lift (runCommand h (deployCmd h ctx) (project_path ctx)
                    (deployEnv h id)) ;;
      try_catch (readDeployedUrl h fs (outputFile h))
                (throw (Error failed_to_find)) ;;;
      ctx' <- get_ctx ;;
      match deployment_url ctx' with
      | Some url =>
          if endsWith url ".pages.dev" then
            normalized <- lift (removeSha1 url) ;;
            assign_url normalized
          else ret tt
      | None => ret tt
      end
  end.

(** [maybeOpenBrowser], deploy.ts lines 164-173. *)
Definition maybeOpenBrowser (h : Host) : M unit :=
  ctx <- get_ctx ;;
  match deployment_url ctx with
  | Some url =>
      if truthy url then
        emit (EvPoll url) ;;;
        if poll h url then
          match args_open ctx with
          | Some true => emit (EvOpenInBrowser url)
          | _ => ret tt
          end
        else ret tt
      else ret tt
  | None => ret tt
  end.

(** The values assigned to [ctx.deployment.url] in a log, in order. *)
Fixpoint url_writes (log : list Event) : list string :=
  match log with
  | [] => []
  | EvSetUrl u :: rest => u :: url_writes rest
  | _ :: rest => url_writes rest
  end.

(** What the [try]/[catch] of lines 134-153 makes of the file system the
    command left behind: the URL found, or the error rethrown. *)
Definition deployOutcome (h : Host) (fs : string -> option string)
  : Result string :=
  match fs (outputFile h) with
  | None => Throw (Error failed_to_find)
  | Some contents =>
      match parse_entries h (output_lines contents) with
      | Ok entries => extractDeployedUrl entries
      | Throw _ => Throw (Error failed_to_find)
      end
  end.

End Deploy.

Import Deploy.

(** ** Looking a certificate up by name *)

Module Certs.

(** [MTlsCertificateResponse], with the fields the tests build. *)
Record MTlsCertificateResponse : Type := {
  id : string;
  name : option string;
  certificates : string;
  issuer : string;
  uploaded_on : string;
  expires_on : string;
  ca : option bool
}.

Inductive CertError : Type :=
| NotFoundError (message : string)
| AmbiguousNameError (message : string).

Definition error_message (e : CertError) : string :=
  match e with
  | NotFoundError m | AmbiguousNameError m => m
  end.

Inductive Resolved : Type :=
| Found (cert : MTlsCertificateResponse)
| Failed (e : CertError).

Definition dquote : string := String "034"%char EmptyString.

Definition not_found_message (query : string) : string :=
  ("certificate not found with name " ++ dquote ++ query ++ dquote)%string.

Definition multiple_found_message (query : string) : string :=
  ("multiple certificates found with name " ++ dquote ++ query ++ dquote)%string.


(** Modelled from the spec: [getMTlsCertificateByName] (the spec's
    [resolveByName]) is not among the sources, only its tests are.  Following
    section 4.2 the resources are listed with the name handed to the registry
    as a filter, and then: no entry fails with [NotFoundError], one entry is
    returned, two or more fail with [AmbiguousNameError].  The entries are
    counted as the registry returns them, without the second, client-side
    filtering by name that section 4.2 describes: the test "should not delete
    when many certificates are found by name" (part_000, lines 624-650) has
    the registry answer the query "my-cert" with two entries named
    "cert one" and expects [multiple certificates found with name "my-cert"],
    which a lookup that filtered again would never report.
    [listMTlsCertificates] is the registry call, by account, optional name
    filter and CA flag. *)
Definition getMTlsCertificateByName
    (listMTlsCertificates :
       string -> option string -> bool -> list MTlsCertificateResponse)
    (accountId query : string) (caFlag : bool) : Resolved :=
  let certificates := listMTlsCertificates accountId (Some query) caFlag in
  match certificates with
  | [] => Failed (NotFoundError (not_found_message query))
  | [cert] => Found cert
  | _ :: _ :: _ => Failed (AmbiguousNameError (multiple_found_message query))
  end.

(** [needle] is a contiguous part of [s]. *)
Definition contains (s needle : string) : Prop :=
  exists before after, s = (before ++ needle ++ after)%string.

End Certs.

Import Certs.

(** ** What the URL pattern describes *)

Module UrlPattern.

(** No character of [s] is a line terminator. *)
Fixpoint noLineTerminator (s : string) : bool :=
  match s with
  | EmptyString => true
  | String c s' => negb (isLineTerminator c) && noLineTerminator s'
  end.

Definition isDomainSuffix (d : string) : Prop :=
  d = ".pages.dev" \/ d = ".workers.dev".

(** [m] reads [https://<mid>.pages.dev] or [https://<mid>.workers.dev] with
    a non-empty [<mid>] that stays on one line. *)
Definition UrlShaped (m : string) : Prop :=
  exists mid d,
    m = ("https://" ++ mid ++ d)%string
    /\ mid <> EmptyString
    /\ noLineTerminator mid = true
    /\ isDomainSuffix d.

(** The same shape when [<mid>] is only required to be non-empty. *)
Definition UrlShapedLoose (m : string) : Prop :=
  exists mid d,
    m = ("https://" ++ mid ++ d)%string
    /\ mid <> EmptyString
    /\ isDomainSuffix d.

(** The host of a URL text in the usual sense: what stands between the
    first "://" and the next "/", "?" or "#" (or the end of the text). *)
Fixpoint upToPath (s : string) : string :=
  match s with
  | EmptyString => EmptyString
  | String c s' =>
      if ((c =? "/") || (c =? "?") || (c =? "#"))%char then EmptyString
      else String c (upToPath s')
  end.

Definition hostOf (url : string) : string :=
  match split "://" url with
  | _ :: afterScheme :: _ => upToPath afterScheme
  | _ => EmptyString
  end.

End UrlPattern.

Import UrlPattern.

(** ** The extraction rule, stated on output records *)

Module OutputRecords.

Definition isString (v : JSValue) : bool :=
  match v with
  | JString _ => true
  | _ => false
  end.

(** An output record: a JSON object whose [targets] field, when present, is
    a list of strings. *)
Definition isOutputRecord (v : JSValue) : bool :=
  match v with
  | JObject props =>
      match lookup "targets" props with
      | None => true
      | Some (JArray elems) => forallb isString elems
      | Some _ => false
      end
  | _ => false
  end.

(** The record's [type] field is the string [ty]. *)
Definition typeIs (ty : string) (r : JSValue) : bool :=
  match r with
  | JObject props =>
      match lookup "type" props with
      | Some (JString s) => s =? ty
      | _ => false
      end
  | _ => false
  end.

(** The first element of the record's [targets] list. *)
Definition firstTarget (r : JSValue) : option JSValue :=
  match r with
  | JObject props =>
      match lookup "targets" props with
      | Some (JArray (t :: _)) => Some t
      | _ => None
      end
  | _ => None
  end.

(** The record's [url] field. *)
Definition urlField (r : JSValue) : option JSValue :=
  match r with
  | JObject props => lookup "url" props
  | _ => None
  end.

(** The value the rule picks: the first target of the first "deploy" record
    or else, when there is none, the [url] of the first "pages-deploy"
    record. *)
Definition candidate (entries : list JSValue) : option JSValue :=
  match option_map firstTarget (List.find (typeIs "deploy") entries) with
  | Some (Some t) => Some t
  | _ =>
      match List.find (typeIs "pages-deploy") entries with
      | Some p => urlField p
      | None => None
      end
  end.

End OutputRecords.

Import OutputRecords.

(** ** Sample data *)

Module Samples.

(** A registry that answers every listing with [certs], as the mock of the
    tests does. *)
Definition mockGetMTlsCertificates (certs : list MTlsCertificateResponse)
  : string -> option string -> bool -> list MTlsCertificateResponse :=
  fun _ _ _ => certs.

Definition cert (i n : string) : MTlsCertificateResponse :=
  {| id := i; name := Some n; certificates := "BEGIN CERTIFICATE...";
     issuer := "example.com..."; uploaded_on := "now";
     expires_on := "oneYearLater"; ca := None |}.

(** A configuration whose first key after "assets" leads to a "bindings"
    key. *)
Definition config_bindings_after_assets : JSValue :=
  JObject [("assets", JObject []);
           ("vars", JObject [("bindings", JArray [])])].

(** A configuration whose only binding key sits inside the "assets" block. *)
Definition config_assets_binding : JSValue :=
  JObject [("assets", JObject [("binding", JString "ASSETS")])].

(** [{"type":"deploy","targets":["https://foo.workers.dev"]}] *)
Definition record_deploy_foo : JSValue :=
  JObject [("type", JString "deploy");
           ("targets", JArray [JString "https://foo.workers.dev"])].

(** [{"type":"pages-deploy","url":"https://abcd1234.myproj.pages.dev"}] *)
Definition record_pages_myproj : JSValue :=
  JObject [("type", JString "pages-deploy");
           ("url", JString "https://abcd1234.myproj.pages.dev")].

(** A URL value with a line break inside its host part. *)
Definition url_with_line_break : string :=
  ("https://a" ++ String LF "b.pages.dev")%string.

Definition record_with_line_break : JSValue :=
  JObject [("type", JString "pages-deploy");
           ("url", JString url_with_line_break)].

(** A line of JSON text is built with explicit quotation marks. *)
Definition q (s : string) : string := (dquote ++ s ++ dquote)%string.

Definition line_pages_myproj : string :=
  ("{" ++ q "type" ++ ":" ++ q "pages-deploy" ++ ","
   ++ q "url" ++ ":" ++ q "https://abcd1234.myproj.pages.dev" ++ "}")%string.

Definition line_deploy_foo : string :=
  ("{" ++ q "type" ++ ":" ++ q "deploy" ++ ","
   ++ q "targets" ++ ":[" ++ q "https://foo.workers.dev" ++ "]}")%string.

(** A JSON parser that knows the two sample lines and the literal [null],
    and rejects everything else. *)
Definition sample_JSON_parse (text : string) : Result JSValue :=
  if text =? line_pages_myproj then Ok record_pages_myproj
  else if text =? line_deploy_foo then Ok record_deploy_foo
  else if text =? "null" then Ok JNull
  else Throw SyntaxError.

(** Collaborators for a run whose deploy command writes [output] to the
    capture file, or writes nothing for [None]. *)
Definition sample_host (output : option string) (pollResult : bool) : Host :=
  {| wranglerJsonExists := fun _ => false;
     readWranglerJson := fun _ => Throw (HostError "ENOENT");
     readWranglerToml := fun _ => Ok "name = x";
     jsoncParse := fun _ => JUndefined;
     TOML_parse := fun _ => Ok (JObject [("name", JString "x")]);
     detectPackageManager := ("npm", "npm");
     isInsideGitRepo := fun _ => false;
     tmpdir := "/tmp";
     mkdtemp := fun prefix => (prefix ++ "XXXXXX")%string;
     path_join := fun a b => (a ++ "/" ++ b)%string;
     runCommand := fun _ _ env =>
       Ok (fun path =>
             if path =? "/tmp/c3-wrangler-deploy-XXXXXX/output.json"
             then output else None);
     JSON_parse := sample_JSON_parse;
     JSON_stringify := q;
     poll := fun _ => pollResult |}.

Definition sample_ctx (platform : string) (url : option string)
    (open : option bool) : C3Context :=
  {| template_platform := platform;
     template_deployScript := None;
     project_path := "/work/my-app";
     account_id := Some "account-1";
     commitMessage := None;
     deployment_url := url;
     args_open := open |}.

Definition sample_state (ctx : C3Context) : State :=
  {| st_ctx := ctx; st_log := [] |}.

End Samples.

Import Samples.

(** ** More sample data *)

Module MoreSamples.

(** Collaborators of a project without a JSON configuration, whose TOML
    file reads as [toml]. *)
Definition sample_host_config (toml : Result string) : Host :=
  {| wranglerJsonExists := fun _ => false;
     readWranglerJson := fun _ => Throw (HostError "ENOENT");
     readWranglerToml := fun _ => toml;
     jsoncParse := fun _ => JUndefined;
     TOML_parse := fun _ => Ok (JObject [("name", JString "x")]);
     detectPackageManager := ("npm", "npm");
     isInsideGitRepo := fun _ => false;
     tmpdir := "/tmp";
     mkdtemp := fun prefix => (prefix ++ "XXXXXX")%string;
     path_join := fun a b => (a ++ "/" ++ b)%string;
     runCommand := fun _ _ _ => Throw (HostError "exit 1");
     JSON_parse := sample_JSON_parse;
     JSON_stringify := q;
     poll := fun _ => true |}.

(** A TOML parser that knows one document, written with LF line ends, and
    rejects every other text, the same document with CR LF line ends
    included. *)
Definition sample_TOML_parse (text : string) : Result JSValue :=
  if text =? join (String LF "") ["[[kv_namespaces]]"; "binding = KV"]
  then Ok (JObject
             [("kv_namespaces", JArray [JObject [("binding", JString "KV")]])])
  else Throw SyntaxError.

(** Collaborators of a project without a JSON configuration, whose TOML
    file was written with CR LF line ends. *)
Definition sample_host_crlf : Host :=
  {| wranglerJsonExists := fun _ => false;
     readWranglerJson := fun _ => Throw (HostError "ENOENT");
     readWranglerToml := fun _ =>
       Ok (join (String CR (String LF ""))
             ["[[kv_namespaces]]"; "binding = KV"]);
     jsoncParse := fun _ => JUndefined;
     TOML_parse := sample_TOML_parse;
     detectPackageManager := ("npm", "npm");
     isInsideGitRepo := fun _ => false;
     tmpdir := "/tmp";
     mkdtemp := fun prefix => (prefix ++ "XXXXXX")%string;
     path_join := fun a b => (a ++ "/" ++ b)%string;
     runCommand := fun _ _ _ => Throw (HostError "exit 1");
     JSON_parse := sample_JSON_parse;
     JSON_stringify := q;
     poll := fun _ => true |}.

End MoreSamples.

Import MoreSamples.

(** ** [offerToDeploy] *)

Module Offer.

(** What [offerToDeploy] does, in order; [EvGate] wraps what [isDeployable]
    did on its behalf. *)
Inductive OfferEvent : Type :=
| EvStartSection (heading subheading : string)
| EvGate (e : Event)
| EvUpdateStatus (message : string)
| EvProcessArgument (deployArg : option bool) (label : string)
    (defaultValue : bool)
| EvWranglerLogin
| EvChooseAccount.

(** The helpers [offerToDeploy] imports besides those of [Host].
    [processArgument] is given [ctx.args.deploy], the label and the default of
    the prompt; it answers and leaves a value in [ctx.args.deploy].
    [wranglerLogin] and [chooseAccount] receive the context and may change
    it. *)
Record OfferHost : Type := {
  quoteShellArgs : list string -> string;
  blue : string -> string;
  C3_DEFAULTS_deploy : bool;
  processArgument :
    option bool -> string -> bool -> Result (bool * option bool);
  wranglerLogin : C3Context -> Result (bool * C3Context);
  chooseAccount : C3Context -> Result C3Context
}.

(** The context together with [ctx.args.deploy] and the log. *)
Record OfferState : Type := {
  of_ctx : C3Context;
  of_args_deploy : option bool;
  of_log : list OfferEvent
}.

(** [ctx.deployment = {}] *)
Definition clear_deployment (ctx : C3Context) : C3Context :=
  {| template_platform := template_platform ctx;
     template_deployScript := template_deployScript ctx;
     project_path := project_path ctx;
     account_id := account_id ctx;
     commitMessage := commitMessage ctx;
     deployment_url := None;
     args_open := args_open ctx |}.

Definition bindings_status (oh : OfferHost) : string :=
  ("Bindings must be configured in " ++ blue oh "`wrangler.toml`"
   ++ " before your application can be deployed")%string.

(** The label of the prompt, lines 38-42. *)
Definition deploy_label (h : Host) (oh : OfferHost) (ctx : C3Context)
  : string :=
  ("deploy via `"
   ++ quoteShellArgs oh
        [fst (detectPackageManager h); "run";
         match template_deployScript ctx with
         | Some s => s
         | None => "deploy"
         end]
   ++ "`")%string.

(** [offerToDeploy], deploy.ts lines 23-67. *)
Definition offerToDeploy (h : Host) (oh : OfferHost) (s : OfferState)
  : Result bool * OfferState :=
  let ctx := of_ctx s in
  let log1 :=
    of_log s ++ [EvStartSection "Deploy with Cloudflare" "Step 3 of 3"] in
  let '(deployable, gate) :=
    isDeployable h {| st_ctx := ctx; st_log := [] |} in
  let log2 := log1 ++ map EvGate (st_log gate) in
  match deployable with
  | Throw e =>
      (Throw e,
       {| of_ctx := ctx; of_args_deploy := of_args_deploy s;
          of_log := log2 |})
  | Ok d =>
      let deployArg := if d then of_args_deploy s else Some false in
      let log3 :=
        if d then log2 else log2 ++ [EvUpdateStatus (bindings_status oh)] in
      let label := deploy_label h oh ctx in
      let log4 :=
        log3 ++ [EvProcessArgument deployArg label (C3_DEFAULTS_deploy oh)] in
      match processArgument oh deployArg label (C3_DEFAULTS_deploy oh) with
      | Throw e =>
          (Throw e,
           {| of_ctx := ctx; of_args_deploy := deployArg; of_log := log4 |})
      | Ok (shouldDeploy, deployArg') =>
          if negb shouldDeploy then
            (Ok false,
             {| of_ctx := ctx; of_args_deploy := deployArg';
                of_log := log4 |})
          else
            let ctx1 := clear_deployment ctx in
            let log5 := log4 ++ [EvWranglerLogin] in
            match wranglerLogin oh ctx1 with
            | Throw e =>
                (Throw e,
                 {| of_ctx := ctx1; of_args_deploy := deployArg';
                    of_log := log5 |})
            | Ok (loginSuccess, ctx2) =>
                if negb loginSuccess then
                  (Ok false,
                   {| of_ctx := ctx2; of_args_deploy := deployArg';
                      of_log := log5 |})
                else
                  match chooseAccount oh ctx2 with
                  | Throw e =>
                      (Throw e,
                       {| of_ctx := ctx2; of_args_deploy := deployArg';
                          of_log := log5 ++ [EvChooseAccount] |})
                  | Ok ctx3 =>
                      (Ok true,
                       {| of_ctx := ctx3; of_args_deploy := deployArg';
                          of_log := log5 ++ [EvChooseAccount] |})
                  end
            end
      end
  end.

(** The logins and account choices in a log. *)
Definition isLoginOrAccount (e : OfferEvent) : bool :=
  match e with
  | EvWranglerLogin | EvChooseAccount => true
  | _ => false
  end.

(** A prompt that answers with [ctx.args.deploy] when it is set and with
    [answer] otherwise, a login that gives [login], an account chooser that
    sets the account id. *)
Definition sample_offer_host (answer login : bool) : OfferHost :=
  {| quoteShellArgs := String.concat " ";
     blue := fun s => s;
     C3_DEFAULTS_deploy := true;
     processArgument := fun deployArg _ _ =>
       match deployArg with
       | Some b => Ok (b, Some b)
       | None => Ok (answer, Some answer)
       end;
     wranglerLogin := fun ctx => Ok (login, ctx);
     chooseAccount := fun ctx =>
       Ok {| template_platform := template_platform ctx;
             template_deployScript := template_deployScript ctx;
             project_path := project_path ctx;
             account_id := Some "account-1"%string;
             commitMessage := commitMessage ctx;
             deployment_url := deployment_url ctx;
             args_open := args_open ctx |} |}.

(** A host whose TOML configuration parses to [tree]. *)
Definition sample_host_tree (tree : JSValue) : Host :=
  {| wranglerJsonExists := fun _ => false;
     readWranglerJson := fun _ => Throw (HostError "ENOENT");
     readWranglerToml := fun _ => Ok ""%string;
     jsoncParse := fun _ => JUndefined;
     TOML_parse := fun _ => Ok tree;
     detectPackageManager := ("npm", "npm")%string;
     isInsideGitRepo := fun _ => false;
     tmpdir := "/tmp"%string;
     mkdtemp := fun prefix => (prefix ++ "XXXXXX")%string;
     path_join := fun a b => (a ++ "/" ++ b)%string;
     runCommand := fun _ _ _ => Throw (HostError "exit 1");
     JSON_parse := fun _ => Throw SyntaxError;
     JSON_stringify := fun s => s;
     poll := fun _ => true |}.

Definition sample_offer_state (platform : string) (deployArg : option bool)
  : OfferState :=
  {| of_ctx :=
       {| template_platform := platform;
          template_deployScript := None;
          project_path := "/work/my-app"%string;
          account_id := None;
          commitMessage := None;
          deployment_url := Some "https://old.pages.dev"%string;
          args_open := None |};
     of_args_deploy := deployArg;
     of_log := [] |}.

End Offer.

Import Offer.

(** ** The DevTools frame of the playground *)

Module Devtools.

(** *** [URLSearchParams] and its serialization *)

(** The characters the application/x-www-form-urlencoded serializer leaves
    as they are: ASCII letters and digits, [*], [-], [.] and [_]. *)
Definition isUrlencodedSafe (c : ascii) : bool :=
  let n := nat_of_ascii c in
  ((48 <=? n)%nat && (n <=? 57)%nat) || ((65 <=? n)%nat && (n <=? 90)%nat)
  || ((97 <=? n)%nat && (n <=? 122)%nat)
  || (n =? 42)%nat || (n =? 45)%nat || (n =? 46)%nat || (n =? 95)%nat.

Definition hexDigit (n : nat) : ascii :=
  match String.get n "0123456789ABCDEF" with
  | Some c => c
  | None => "0"%char
  end.

(** [%XY] for a byte. *)
Definition percentByte (b : nat) : string :=
  String "%"
    (String (hexDigit (b / 16)%nat) (String (hexDigit (b mod 16)%nat) "")).

(** The UTF-8 bytes of a code unit below 256. *)
Definition utf8 (c : ascii) : list nat :=
  let n := nat_of_ascii c in
  if (n <? 128)%nat then [n] else [192 + n / 64; 128 + n mod 64]%nat.

Definition urlencodeChar (c : ascii) : string :=
  if (c =? " ")%char then "+"
  else if isUrlencodedSafe c then String c ""
  else String.concat "" (map percentByte (utf8 c)).

(** The serialization of a name or a value. *)
Fixpoint urlencode (s : string) : string :=
  match s with
  | EmptyString => EmptyString
  | String c s' => (urlencodeChar c ++ urlencode s')%string
  end.

(** The serialization of a parameter list: [name=value] joined by [&]. *)
Definition serializeParams (ps : list (string * string)) : string :=
  join "&"
    (map (fun kv => (urlencode (fst kv) ++ "=" ++ urlencode (snd kv))%string)
       ps).

(** [searchParams.set(name, value)]: the first parameter called [name] gets
    the value and the others of that name are removed; when there is none the
    parameter is appended. *)
Fixpoint setParam (name value : string) (ps : list (string * string))
  : list (string * string) :=
  match ps with
  | [] => [(name, value)]
  | (k, v) :: rest =>
      if k =? name
      then (name, value) :: filter (fun kv => negb (fst kv =? name)) rest
      else (k, v) :: setParam name value rest
  end.

(** [searchParams.getAll(name)] *)
Definition getAll (name : string) (ps : list (string * string))
  : list string :=
  map snd (filter (fun kv => fst kv =? name) ps).

(** A parsed URL: its serialization up to the query, the parameters of the
    query and the fragment. *)
Record URL : Type := {
  url_base : string;
  url_params : list (string * string);
  url_fragment : option string
}.

(** [url.toString()] *)
Definition URL_toString (u : URL) : string :=
  (url_base u
   ++ match url_params u with
      | [] => ""
      | _ :: _ => "?" ++ serializeParams (url_params u)
      end
   ++ match url_fragment u with
      | Some f => "#" ++ f
      | None => ""
      end)%string.

(** *** DevtoolsIframe.tsx *)

Definition default_devtools_url : string :=
  "https://devtools.devprod.cloudflare.dev/js_app".

(** The [devToolsUrl] constant of lines 8-10; [env] is
    [import.meta.env.VITE_DEVTOOLS_PREVIEW_URL]. *)
Definition devToolsUrl (env : option string) : string :=
  match env with
  | Some preview =>
      if truthy preview then (preview ++ "/js_app")%string
      else default_devtools_url
  | None => default_devtools_url
  end.

(** The parameters after the three [set] calls of lines 13-16. *)
Definition devtoolsParams (ps : list (string * string))
    (inspectorUrl : string) : list (string * string) :=
  setParam "domain" "workers playground"
    (setParam "theme" "systemPreferred"
       (setParam "wss" (drop 5 inspectorUrl) ps)).

(** [getDevtoolsIframeUrl], DevtoolsIframe.tsx lines 7-18.  [parseURL] is
    the [URL] constructor, which throws on a string that is not a URL. *)
Definition getDevtoolsIframeUrl (env : option string)
    (parseURL : string -> Result URL) (inspectorUrl : string)
  : Result string :=
  rbind (parseURL (devToolsUrl env)) (fun url =>
    Ok (URL_toString
          {| url_base := url_base url;
             url_params := devtoolsParams (url_params url) inspectorUrl;
             url_fragment := url_fragment url |})).

(** The [Frame] element of lines 25-29. *)
Record Frame : Type := {
  frame_pointerEvents_none : bool;
  frame_src : string;
  frame_sandbox : string
}.

(** [DevtoolsIframe], lines 20-31: [devtoolsUrl] is
    [draftWorker?.devtoolsUrl]; [None] is the [null] element. *)
Definition DevtoolsIframe (env : option string)
    (parseURL : string -> Result URL)
    (devtoolsUrl : option string) (isPaneDragging : bool)
  : Result (option Frame) :=
  match devtoolsUrl with
  | Some inspectorUrl =>
      if truthy inspectorUrl then
        rbind (getDevtoolsIframeUrl env parseURL inspectorUrl) (fun src =>
          Ok (Some {| frame_pointerEvents_none := isPaneDragging;
                      frame_src := src;
                      frame_sandbox := "allow-scripts allow-same-origin" |}))
      else Ok None
  | None => Ok None
  end.

(** *** Reading an encoded character back *)




(** A character that may occur in a serialized name or value. *)
Definition isUrlencodedOutput (c : ascii) : bool :=
  isUrlencodedSafe c || (c =? "+")%char || (c =? "%")%char.

Fixpoint allChars (P : ascii -> bool) (s : string) : bool :=
  match s with
  | EmptyString => true
  | String c s' => P c && allChars P s'
  end.

(** The [URL] constructor on the default address. *)
Definition sample_parseURL (s : string) : Result URL :=
  if s =? default_devtools_url
  then Ok {| url_base := default_devtools_url; url_params := [];
             url_fragment := None |}
  else if s =? "https://preview.example/js_app"
  then Ok {| url_base := "https://preview.example/js_app";
             url_params := [("theme", "dark"); ("x", "1"); ("theme", "light")];
             url_fragment := None |}
  else Throw TypeError.

End Devtools.

Import Devtools.

(** ** Proof tools *)

(** Unfolds the operations of [M] and simplifies the states they build. *)
Ltac unfold_M :=
  unfold try_catch, bind, ret, throw, lift, get_ctx, emit, assign_url;
  cbn [st_ctx st_log fst snd].

(** ** Facts about strings *)

Section StringFacts.

Local Open Scope string_scope.

Lemma append_assoc (a b c : string) : (a ++ b) ++ c = a ++ (b ++ c).
Proof. induction a as [|x a IH]; simpl; [reflexivity | now rewrite IH]. Qed.

Lemma append_nil_r (a : string) : a ++ "" = a.
Proof. induction a as [|x a IH]; simpl; [reflexivity | now rewrite IH]. Qed.

Lemma length_append (a b : string) :
  String.length (a ++ b) = (String.length a + String.length b)%nat.
Proof. induction a as [|x a IH]; simpl; [reflexivity | now rewrite IH]. Qed.

Lemma startsWith_iff (p s : string) :
  startsWith p s = true <-> exists t, s = p ++ t.
Proof.
  revert s. induction p as [|a p IH]; intros s; simpl.
  - split; [intros _; now exists s | reflexivity].
  - destruct s as [|b s].
    + split; [discriminate | intros [t Ht]; discriminate].
    + rewrite andb_true_iff, Ascii.eqb_eq, IH. split.
      * intros [-> [t ->]]. now exists t.
      * intros [t Ht]. inversion Ht; subst. split; [reflexivity | now exists t].
Qed.

Lemma startsWith_append (p t : string) : startsWith p (p ++ t) = true.
Proof. apply startsWith_iff. now exists t. Qed.

Lemma startsWith_extend (p s t : string) :
  startsWith p s = true -> startsWith p (s ++ t) = true.
Proof.
  rewrite !startsWith_iff. intros [u ->]. exists (u ++ t).
  apply append_assoc.
Qed.

Lemma drop_append (p t : string) : drop (String.length p) (p ++ t) = t.
Proof. induction p as [|a p IH]; simpl; [now destruct t | exact IH]. Qed.

Lemma drop_is_suffix (s : string) (n : nat) :
  (n <= String.length s)%nat ->
  exists t, s = t ++ drop (String.length s - n) s.
Proof.
  induction s as [|c s IH]; intros Hle.
  - exists "". now destruct (String.length "" - n)%nat.
  - destruct (Nat.eq_dec n (S (String.length s))) as [->|Hn].
    + exists "". cbn [String.length]. now rewrite Nat.sub_diag.
    + cbn [String.length] in *.
      replace (S (String.length s) - n)%nat
        with (S (String.length s - n)) by lia.
      destruct IH as [t Ht]; [lia|].
      exists (String c t). cbn [drop append]. now rewrite <- Ht.
Qed.

Lemma endsWith_iff (s suf : string) :
  endsWith s suf = true <-> exists t, s = t ++ suf.
Proof.
  unfold endsWith. rewrite andb_true_iff, Nat.leb_le, String.eqb_eq. split.
  - intros [Hle Hd]. destruct (drop_is_suffix s _ Hle) as [t Ht].
    exists t. now rewrite Hd in Ht.
  - intros [t ->]. rewrite length_append. split; [lia|].
    replace (String.length t + String.length suf - String.length suf)%nat
      with (String.length t) by lia.
    apply drop_append.
Qed.

End StringFacts.

(** ** Properties of [hasBinding] *)

Lemma hasBinding_object props :
  hasBinding (JObject props) = hasBinding_props props.
Proof.
  simpl. induction props as [|[k v] rest IH]; simpl; [reflexivity|].
  now rewrite IH.
Qed.

Lemma hasBinding_array_from i elems :
  (fix loop (i : nat) (es : list JSValue) : bool :=
     match es with
     | [] => false
     | value :: rest =>
         if index_key i =? "assets" then loop (S i) rest
         else if isBindingKey (index_key i) then true
         else hasBinding value
     end) i elems = hasBinding_elems i elems.
Proof.
  revert i. induction elems as [|v rest IH]; intros i; simpl; [reflexivity|].
  now rewrite IH.
Qed.

Lemma hasBinding_array elems :
  hasBinding (JArray elems) = hasBinding_elems 0 elems.
Proof. exact (hasBinding_array_from 0 elems). Qed.

(** The guard of lines 179-181. *)
Lemma hasBinding_guard v :
  typeof_object v = false \/ v = JNull -> hasBinding v = false.
Proof. intros [H | ->]; [now destruct v | reflexivity]. Qed.

(** An index numeral starts with a digit, so it is none of the three keys the
    loop looks for. *)
Lemma index_key_head i :
  index_key i = "" \/
  exists c s, index_key i = String c s /\
    In c ["0"; "1"; "2"; "3"; "4"; "5"; "6"; "7"; "8"; "9"]%char.
Proof.
  unfold index_key. destruct (Nat.to_uint i); simpl;
    first [ now left | right; eexists; eexists; split; [reflexivity|];
            simpl; tauto ].
Qed.

Lemma index_key_not_special i :
  (index_key i =? "assets") = false /\ isBindingKey (index_key i) = false.
Proof.
  unfold isBindingKey.
  destruct (index_key_head i) as [E | (c & s & E & Hc)]; rewrite E.
  - now split.
  - simpl in Hc.
    repeat (destruct Hc as [<- | Hc]; [now split|]). contradiction.
Qed.

Lemma hasBinding_elems_head i elems :
  hasBinding_elems i elems =
  match elems with [] => false | v :: _ => hasBinding v end.
Proof.
  destruct elems as [|v rest]; simpl; [reflexivity|].
  destruct (index_key_not_special i) as [-> ->]. reflexivity.
Qed.

(** The value the loop recurses into is the one JavaScript's [node[key]]
    returns for the key being visited. *)
Lemma firstRemaining_lookup props k v :
  firstRemaining props = Some (k, v) -> lookup k props = Some v.
Proof.
  induction props as [|[k' v'] rest IH]; simpl; [discriminate|].
  destruct (k' =? "assets") eqn:Ea.
  - intros H. destruct (k' =? k) eqn:Ek.
    + apply String.eqb_eq in Ea, Ek. subst.
      exfalso. clear IH. induction rest as [|[k2 v2] r IHr]; simpl in H;
        [discriminate|].
      destruct (k2 =? "assets") eqn:E2; [auto|].
      inversion H; subst. discriminate.
    + auto.
  - intros H. inversion H; subst. now rewrite String.eqb_refl.
Qed.

Lemma hasBinding_props_firstRemaining props :
  hasBinding_props props =
  match firstRemaining props with
  | None => false
  | Some (k, v) => if isBindingKey k then true else hasBinding v
  end.
Proof.
  induction props as [|[k v] rest IH]; simpl; [reflexivity|].
  destruct (k =? "assets"); [exact IH | reflexivity].
Qed.

Lemma isBindingKey_iff k :
  isBindingKey k = true <-> k = "binding" \/ k = "bindings".
Proof.
  unfold isBindingKey. rewrite orb_true_iff, !String.eqb_eq. tauto.
Qed.

Lemma Reachable_hasBinding t : Reachable t -> hasBinding t = true.
Proof.
  induction 1 as [props k v Hf Hk | props k v Hf _ IH | v rest _ IH].
  - rewrite hasBinding_object, hasBinding_props_firstRemaining, Hf.
    apply isBindingKey_iff in Hk. now rewrite Hk.
  - rewrite hasBinding_object, hasBinding_props_firstRemaining, Hf, IH.
    now destruct (isBindingKey k).
  - now rewrite hasBinding_array, hasBinding_elems_head.
Qed.

Lemma hasBinding_Reachable t : hasBinding t = true -> Reachable t.
Proof.
  induction t as [ | | b | n | s | elems IH | props IH]
    using JSValue_nested_ind; try discriminate.
  - rewrite hasBinding_array, hasBinding_elems_head.
    destruct elems as [|v rest]; [discriminate|].
    inversion IH; subst. intros H. apply Reach_first. auto.
  - rewrite hasBinding_object, hasBinding_props_firstRemaining.
    destruct (firstRemaining props) as [[k v]|] eqn:Hf; [|discriminate].
    assert (Hin : In (k, v) props).
    { clear IH. induction props as [|[k' v'] rest IHr]; simpl in Hf;
        [discriminate|].
      destruct (k' =? "assets"); [right; auto|].
      inversion Hf; subst. now left. }
    destruct (isBindingKey k) eqn:Hk; intros H.
    + eapply Reach_here; [exact Hf|]. now apply isBindingKey_iff.
    + eapply Reach_down; [exact Hf|].
      rewrite Forall_forall in IH. exact (IH _ Hin H).
Qed.

Lemma hasBinding_outside_assets t :
  hasBinding t = true -> bindingOutsideAssets t = true.
Proof.
  induction t as [ | | b | n | s | elems IH | props IH]
    using JSValue_nested_ind; try discriminate.
  - rewrite hasBinding_array, hasBinding_elems_head.
    destruct elems as [|v rest]; [discriminate|].
    inversion IH; subst. intros H. simpl.
    apply orb_true_iff. left. auto.
  - rewrite hasBinding_object.
    induction IH as [|[k v] rest Hv _ IHrest]; [discriminate|].
    simpl in *. destruct (k =? "assets") eqn:Ea.
    + intros H. rewrite (IHrest H). apply orb_true_r.
    + destruct (isBindingKey k); [reflexivity|].
      intros H. rewrite (Hv H). reflexivity.
Qed.

(** *** C1 *)

(** C1.  A mapping node that has a key named "binding" which is not its
    first key: [{"id": "abc", "binding": "KV"}], the shape of an entry of
    [kv_namespaces].  The node has the key, and [hasBinding] answers [false]
    for it: the loop returns on the first key, "id", whose value is a
    string. *)
Theorem hasBinding_binding_key_not_first :
  let node := JObject [("id", JString "abc"); ("binding", JString "KV")] in
  lookup "binding" [("id", JString "abc"); ("binding", JString "KV")]
    = Some (JString "KV")
  /\ hasBinding node = false.
Proof. split; reflexivity. Qed.

(** The same on a whole wrangler configuration: the first key is [name], so
    the binding declared further down is never seen. *)
Lemma hasBinding_typical_config :
  hasBinding
    (JObject
       [("name", JString "my-worker");
        ("main", JString "src/index.ts");
        ("kv_namespaces",
         JArray [JObject [("binding", JString "KV"); ("id", JString "abc")]])])
  = false.
Proof. reflexivity. Qed.

(** What the loop does guarantee: a binding key that is the first key left
    after the "assets" keys makes the node answer [true], whatever the other
    keys hold. *)
Lemma hasBinding_first_remaining_binding_key props k v :
  firstRemaining props = Some (k, v) ->
  k = "binding" \/ k = "bindings" ->
  hasBinding (JObject props) = true.
Proof. intros Hf Hk. apply Reachable_hasBinding. now apply (Reach_here props k v). Qed.

(** *** C2 *)

(** C2.  [hasBinding] answers [true] for every tree in which a binding key
    is reachable by the first-key-only descent (at a mapping: skip the
    "assets" keys, take the first key that is left; at a sequence: take the
    first element); it answers [false] for every tree that has no binding key
    outside the values of "assets" keys, hence for every tree whose only
    binding keys lie inside an "assets" subtree; and it answers [false] on
    every node that is neither a mapping nor a sequence, [null] and
    [undefined] included. *)
Theorem hasBinding_first_key_descent :
  forall t : JSValue,
    (Reachable t -> hasBinding t = true) /\
    (bindingOutsideAssets t = false -> hasBinding t = false) /\
    (isLeaf t = true -> hasBinding t = false).
Proof.
  intros t. split; [apply Reachable_hasBinding | split].
  - intros H. destruct (hasBinding t) eqn:E; [|reflexivity].
    apply hasBinding_outside_assets in E. congruence.
  - destruct t; simpl; intros H; try reflexivity; discriminate.
Qed.

Lemma hasBinding_first_key_descent_witness :
  (Reachable config_bindings_after_assets
   /\ hasBinding config_bindings_after_assets = true)
  /\ (bindingAnywhere config_assets_binding = true
      /\ bindingOutsideAssets config_assets_binding = false
      /\ hasBinding config_assets_binding = false)
  /\ (isLeaf JNull = true /\ hasBinding JNull = false).
Proof.
  assert (R : Reachable config_bindings_after_assets).
  { eapply Reach_down; [reflexivity|].
    eapply Reach_here; [reflexivity|]. now right. }
  split; [split; [exact R|] | split; [split; [|split] | split]].
  - exact (proj1 (hasBinding_first_key_descent _) R).
  - reflexivity.
  - reflexivity.
  - exact (proj1 (proj2 (hasBinding_first_key_descent config_assets_binding))
             eq_refl).
  - reflexivity.
  - exact (proj2 (proj2 (hasBinding_first_key_descent JNull)) eq_refl).
Defined.

(** ** Properties of the lookup by name *)



(** The three tests of [describe("getMTlsCertificateByName")]. *)
Lemma test_calls_list_endpoint_with_name :
  getMTlsCertificateByName
    (mockGetMTlsCertificates [cert "1234" "cert one"])
    "some-account-id" "cert one" true
  = Found (cert "1234" "cert one").
Proof. reflexivity. Qed.

Lemma test_errors_when_not_found :
  getMTlsCertificateByName (mockGetMTlsCertificates [])
    "some-account-id" "cert one" true
  = Failed (NotFoundError
      ("certificate not found with name "
       ++ String "034" ("cert one" ++ String "034" ""))%string).
Proof. reflexivity. Qed.

Lemma test_errors_when_multiple_found :
  getMTlsCertificateByName
    (mockGetMTlsCertificates
       [cert "1234" "cert one"; cert "5678" "cert one"])
    "some-account-id" "cert one" true
  = Failed (AmbiguousNameError
      ("multiple certificates found with name "
       ++ String "034" ("cert one" ++ String "034" ""))%string).
Proof. reflexivity. Qed.

(** The three tests of the delete command that look a certificate up by
    name ("should delete certificate by name", "should not delete when
    certificate cannot be found by name", "should not delete when many
    certificates are found by name"). *)
Lemma test_delete_by_name :
  getMTlsCertificateByName
    (mockGetMTlsCertificates [cert "1234" "my-cert"])
    "some-account-id" "my-cert" false
  = Found (cert "1234" "my-cert").
Proof. reflexivity. Qed.

Lemma test_delete_not_found_by_name :
  getMTlsCertificateByName (mockGetMTlsCertificates [])
    "some-account-id" "my-cert" false
  = Failed (NotFoundError
      ("certificate not found with name "
       ++ String "034" ("my-cert" ++ String "034" ""))%string).
Proof. reflexivity. Qed.

Lemma test_delete_many_found_by_name :
  getMTlsCertificateByName
    (mockGetMTlsCertificates
       [cert "1234" "cert one"; cert "5678" "cert one"])
    "some-account-id" "my-cert" false
  = Failed (AmbiguousNameError
      ("multiple certificates found with name "
       ++ String "034" ("my-cert" ++ String "034" ""))%string).
Proof. reflexivity. Qed.





(** ** Properties of the URL pattern *)

Section RegexFacts.

Local Open Scope string_scope.

Lemma domain_at_sound s d :
  domain_at s = Some d -> isDomainSuffix d /\ startsWith d s = true.
Proof.
  unfold domain_at, isDomainSuffix.
  destruct (startsWith ".pages.dev" s) eqn:E1.
  - intros H. inversion H; subst. auto.
  - destruct (startsWith ".workers.dev" s) eqn:E2; [|discriminate].
    intros H. inversion H; subst. auto.
Qed.

Lemma domain_at_complete s d :
  isDomainSuffix d -> startsWith d s = true -> domain_at s <> None.
Proof.
  unfold domain_at. intros [-> | ->] H.
  - now rewrite H.
  - rewrite H. now destruct (startsWith ".pages.dev" s).
Qed.

Lemma dotStar_domain_sound s m :
  dotStar_domain s = Some m ->
  exists mid d,
    m = mid ++ d /\ noLineTerminator mid = true /\ isDomainSuffix d
    /\ startsWith m s = true.
Proof.
  revert m. induction s as [|c s IH]; intros m; simpl; [discriminate|].
  destruct (isLineTerminator c) eqn:Ec.
  - intros H. apply domain_at_sound in H. destruct H as [Hd Hs].
    exists "", m. auto.
  - destruct (dotStar_domain s) as [m'|] eqn:Es.
    + intros H. inversion H; subst.
      destruct (IH m' eq_refl) as (mid & d & -> & Hm & Hd & Hs).
      exists (String c mid), d. simpl. rewrite Ec, Hm, Hs, Ascii.eqb_refl.
      auto.
    + intros H. apply domain_at_sound in H. destruct H as [Hd Hs].
      exists "", m. auto.
Qed.

Lemma dotStar_domain_complete mid d post :
  noLineTerminator mid = true -> isDomainSuffix d ->
  dotStar_domain (mid ++ d ++ post) <> None.
Proof.
  intros Hm Hd. induction mid as [|c mid IH]; simpl in *.
  - assert (Hs : startsWith d (d ++ post) = true) by apply startsWith_append.
    pose proof (domain_at_complete _ _ Hd Hs) as Hat.
    destruct (d ++ post) as [|c s]; [destruct Hd as [-> | ->]; discriminate|].
    simpl. destruct (if isLineTerminator c then None else dotStar_domain s);
      [discriminate | exact Hat].
  - apply andb_true_iff in Hm. destruct Hm as [Hc Hm].
    apply negb_true_iff in Hc. rewrite Hc.
    destruct (dotStar_domain (mid ++ d ++ post)); [discriminate|].
    now specialize (IH Hm).
Qed.

Lemma dotPlus_domain_sound s m :
  dotPlus_domain s = Some m ->
  exists mid d,
    m = mid ++ d /\ mid <> "" /\ noLineTerminator mid = true
    /\ isDomainSuffix d /\ startsWith m s = true.
Proof.
  destruct s as [|c s]; simpl; [discriminate|].
  destruct (isLineTerminator c) eqn:Ec; [discriminate|].
  destruct (dotStar_domain s) as [m'|] eqn:Es; [|discriminate].
  intros H. inversion H; subst.
  destruct (dotStar_domain_sound _ _ Es) as (mid & d & -> & Hm & Hd & Hs).
  exists (String c mid), d. simpl. rewrite Ec, Hm, Hs, Ascii.eqb_refl.
  repeat split; auto. discriminate.
Qed.

Lemma dotPlus_domain_complete mid d post :
  mid <> "" -> noLineTerminator mid = true -> isDomainSuffix d ->
  dotPlus_domain (mid ++ d ++ post) <> None.
Proof.
  intros Hne Hm Hd. destruct mid as [|c mid]; [congruence|].
  simpl in *. apply andb_true_iff in Hm. destruct Hm as [Hc Hm].
  apply negb_true_iff in Hc. rewrite Hc.
  pose proof (dotStar_domain_complete mid d post Hm Hd) as H.
  destruct (dotStar_domain (mid ++ d ++ post)); [discriminate | congruence].
Qed.

Lemma deployedUrlRegex_at_sound s m :
  deployedUrlRegex_at s = Some m -> UrlShaped m /\ startsWith m s = true.
Proof.
  unfold deployedUrlRegex_at.
  destruct (startsWith "https://" s) eqn:Eh; [|discriminate].
  apply startsWith_iff in Eh. destruct Eh as [t ->].
  change 8%nat with (String.length "https://"). rewrite drop_append.
  destruct (dotPlus_domain t) as [m'|] eqn:Et; [|discriminate].
  intros H. inversion H; subst.
  destruct (dotPlus_domain_sound _ _ Et) as (mid & d & -> & Hne & Hm & Hd & Hs).
  split.
  - exists mid, d. auto.
  - apply startsWith_iff in Hs. destruct Hs as [u ->].
    apply startsWith_iff. exists u. reflexivity.
Qed.

Lemma deployedUrlRegex_at_complete mid d post :
  mid <> "" -> noLineTerminator mid = true -> isDomainSuffix d ->
  deployedUrlRegex_at ("https://" ++ mid ++ d ++ post) <> None.
Proof.
  intros Hne Hm Hd. unfold deployedUrlRegex_at.
  rewrite startsWith_append.
  change 8%nat with (String.length "https://"). rewrite drop_append.
  pose proof (dotPlus_domain_complete mid d post Hne Hm Hd) as H.
  destruct (dotPlus_domain (mid ++ d ++ post)); [discriminate | congruence].
Qed.

Lemma deployedUrlRegex_match_sound v m :
  deployedUrlRegex_match v = Some m -> contains v m /\ UrlShaped m.
Proof.
  induction v as [|c v IH].
  - discriminate.
  - cbn [deployedUrlRegex_match].
    destruct (deployedUrlRegex_at (String c v)) eqn:E.
    + intros H. inversion H; subst.
      apply deployedUrlRegex_at_sound in E. destruct E as [Hsh Hs].
      split; [|exact Hsh]. apply startsWith_iff in Hs. destruct Hs as [t Ht].
      exists "", t. exact Ht.
    + intros H. destruct (IH H) as [(before & after & ->) Hsh].
      split; [|exact Hsh]. now exists (String c before), after.
Qed.

Lemma deployedUrlRegex_match_here s :
  deployedUrlRegex_at s <> None -> deployedUrlRegex_match s <> None.
Proof.
  destruct s; cbn [deployedUrlRegex_match];
    destruct (deployedUrlRegex_at _); congruence.
Qed.

Lemma deployedUrlRegex_match_complete v m :
  contains v m -> UrlShaped m -> deployedUrlRegex_match v <> None.
Proof.
  intros (before & after & ->) (mid & d & -> & Hne & Hm & Hd).
  induction before as [|c before IH].
  - cbn [append]. apply deployedUrlRegex_match_here.
    rewrite append_assoc.
    exact (deployedUrlRegex_at_complete mid d after Hne Hm Hd).
  - cbn [append deployedUrlRegex_match].
    destruct (deployedUrlRegex_at _); [discriminate | exact IH].
Qed.

End RegexFacts.

(** ** Properties of the extraction *)

Lemma find_type_records ty entries :
  Forall (fun e => isOutputRecord e = true) entries ->
  find_type ty entries =
  Ok (match List.find (typeIs ty) entries with
      | Some r => r
      | None => JUndefined
      end).
Proof.
  induction 1 as [|e rest He _ IH]; [reflexivity|].
  destruct e as [ | | | | | | props]; try discriminate.
  cbn [find_type getNamed rbind List.find typeIs].
  destruct (lookup "type" props) as [[ | | | | s | | ]|]; try exact IH.
  destruct (s =? ty); [reflexivity | exact IH].
Qed.

Lemma find_record ty entries r :
  Forall (fun e => isOutputRecord e = true) entries ->
  List.find (typeIs ty) entries = Some r ->
  isOutputRecord r = true /\ exists props, r = JObject props.
Proof.
  intros Hall Hf. apply find_some in Hf. destruct Hf as [Hin Hty].
  rewrite Forall_forall in Hall. split; [auto|].
  destruct r; try discriminate. now eexists.
Qed.

Lemma pages_url_records entries :
  Forall (fun e => isOutputRecord e = true) entries ->
  rbind (find_type "pages-deploy" entries) (fun p => opt_named p "url") =
  Ok (match (match List.find (typeIs "pages-deploy") entries with
             | Some p => urlField p
             | None => None
             end) with
      | Some v => v
      | None => JUndefined
      end).
Proof.
  intros Hall. rewrite (find_type_records _ _ Hall).
  destruct (List.find (typeIs "pages-deploy") entries) as [p|] eqn:Ep;
    [|reflexivity].
  destruct (find_record _ _ _ Hall Ep) as [_ [props ->]]. reflexivity.
Qed.

Lemma extractUrl_records entries :
  Forall (fun e => isOutputRecord e = true) entries ->
  extractUrl entries =
  Ok (match candidate entries with
      | Some v => if nullish v then JUndefined else v
      | None => JUndefined
      end)
  \/ (candidate entries = Some JNull /\ extractUrl entries = Ok JNull).
Proof.
  intros Hall. unfold extractUrl, candidate.
  rewrite (find_type_records _ _ Hall).
  destruct (List.find (typeIs "deploy") entries) as [d|] eqn:Ed.
  - destruct (find_record _ _ _ Hall Ed) as [Hrec [props ->]].
    cbn [rbind opt_named nullish getNamed option_map firstTarget].
    cbn [isOutputRecord] in Hrec.
    destruct (lookup "targets" props) as [[ | | | | | elems | ]|];
      try discriminate.
    + destruct elems as [|t elems'].
      * cbn [opt_first nullish getFirst]. rewrite (pages_url_records _ Hall).
        destruct (match List.find (typeIs "pages-deploy") entries with
                  | Some p => urlField p | None => None end)
          as [[ | | | | | | ]|]; auto.
      * cbn [forallb] in Hrec. apply andb_true_iff in Hrec.
        destruct Hrec as [Ht _]. destruct t; try discriminate.
        left. reflexivity.
    + cbn [opt_first nullish]. rewrite (pages_url_records _ Hall).
      destruct (match List.find (typeIs "pages-deploy") entries with
                | Some p => urlField p | None => None end)
        as [[ | | | | | | ]|]; auto.
  - cbn [rbind opt_named nullish option_map opt_first].
    rewrite (pages_url_records _ Hall).
    destruct (match List.find (typeIs "pages-deploy") entries with
              | Some p => urlField p | None => None end)
      as [[ | | | | | | ]|]; auto.
Qed.

Lemma extractDeployedUrl_records entries :
  Forall (fun e => isOutputRecord e = true) entries ->
  extractDeployedUrl entries =
  match candidate entries with
  | Some (JString s) =>
      match deployedUrlRegex_match s with
      | Some m => Ok m
      | None => Throw (Error failed_to_find)
      end
  | _ => Throw (Error failed_to_find)
  end.
Proof.
  intros Hall. unfold extractDeployedUrl, findDeployedUrl.
  destruct (extractUrl_records entries Hall) as [-> | [-> ->]];
    [|reflexivity].
  destruct (candidate entries) as [[ | | | | s | | ]|];
    cbn [nullish rbind matchUrl]; try reflexivity.
  now destruct (deployedUrlRegex_match s).
Qed.

(** C4.  For every list of output records, the extraction of [runDeploy]
    works on the value picked in priority order -- the first element of the
    targets list of the first record of type "deploy", else the url field of
    the first record of type "pages-deploy".  Whatever it yields is a part of
    that value which reads [https://<host>.pages.dev] or
    [https://<host>.workers.dev], with a non-empty host on one line; it yields
    such a part whenever the picked value is a string that has one; a picked
    string with no part of that form, a picked value that is not a string and
    no picked value at all end in the same error,
    [Failed to find deployment url.].  For
    [{"type":"deploy","targets":["https://foo.workers.dev"]}] the extraction
    yields [https://foo.workers.dev]. *)
Theorem runDeploy_extraction_priority :
  (forall entries : list JSValue,
      Forall (fun e => isOutputRecord e = true) entries ->
      (forall m, extractDeployedUrl entries = Ok m ->
                 exists s, candidate entries = Some (JString s)
                           /\ contains s m /\ UrlShaped m)
      /\ (forall s, candidate entries = Some (JString s) ->
                    (exists m, contains s m /\ UrlShaped m) ->
                    exists m, extractDeployedUrl entries = Ok m)
      /\ (forall s, candidate entries = Some (JString s) ->
                    (forall m, contains s m -> ~ UrlShaped m) ->
                    extractDeployedUrl entries
                    = Throw (Error "Failed to find deployment url."))
      /\ ((forall s, candidate entries <> Some (JString s)) ->
          extractDeployedUrl entries
          = Throw (Error "Failed to find deployment url."))
      /\ extractDeployedUrl entries =
         match candidate entries with
         | Some (JString s) =>
             match deployedUrlRegex_match s with
             | Some m => Ok m
             | None => Throw (Error "Failed to find deployment url.")
             end
         | _ => Throw (Error "Failed to find deployment url.")
         end)
  /\ extractDeployedUrl [record_deploy_foo] = Ok "https://foo.workers.dev".
Proof.
  split; [|reflexivity].
  intros entries Hall. pose proof (extractDeployedUrl_records entries Hall) as E.
  split; [|split; [|split; [|split; [|exact E]]]].
  - intros m Hm. rewrite Hm in E.
    destruct (candidate entries) as [[ | | | | s | | ]|]; try discriminate.
    destruct (deployedUrlRegex_match s) as [m'|] eqn:Em; [|discriminate].
    injection E as ->. exists s. split; [reflexivity|].
    now apply deployedUrlRegex_match_sound.
  - intros s Hs (m & Hc & Hm). rewrite Hs in E.
    destruct (deployedUrlRegex_match s) as [m'|] eqn:Em.
    + now exists m'.
    + now destruct (deployedUrlRegex_match_complete s m Hc Hm).
  - intros s Hs Hnone. rewrite Hs in E.
    destruct (deployedUrlRegex_match s) as [m'|] eqn:Em; [|exact E].
    apply deployedUrlRegex_match_sound in Em. destruct Em as [Hc Hm].
    now destruct (Hnone m' Hc).
  - intros Hnot. rewrite E.
    destruct (candidate entries) as [[ | | | | s | | ]|]; try reflexivity.
    now destruct (Hnot s).
Qed.

(** A value with another scheme has no part of the required form and is
    refused; the url of a "pages-deploy" record is used when the "deploy"
    record has no target; text around the URL is not part of the result. *)
Lemma runDeploy_extraction_priority_witness :
  extractDeployedUrl
    [JObject [("type", JString "deploy");
              ("targets", JArray [JString "ftp://foo.workers.dev"])]]
  = Throw (Error "Failed to find deployment url.")
  /\ extractDeployedUrl
       [JObject [("type", JString "deploy"); ("targets", JArray [])];
        record_pages_myproj]
     = Ok "https://abcd1234.myproj.pages.dev"
  /\ (forall m,
        extractDeployedUrl
          [JObject [("type", JString "deploy");
                    ("targets",
                     JArray [JString "see https://foo.workers.dev/path"])]]
        = Ok m ->
        exists s,
          Some (JString "see https://foo.workers.dev/path")
          = Some (JString s)
          /\ contains s m /\ UrlShaped m).
Proof.
  split; [|split].
  - refine (proj1 (proj2 (proj2 (proj1 runDeploy_extraction_priority
             [JObject [("type", JString "deploy");
                       ("targets", JArray [JString "ftp://foo.workers.dev"])]]
             _))) "ftp://foo.workers.dev" eq_refl _).
    + repeat constructor.
    + intros m Hc Hm.
      now apply (deployedUrlRegex_match_complete _ _ Hc Hm).
  - rewrite (proj2 (proj2 (proj2 (proj2 (proj1 runDeploy_extraction_priority
               [JObject [("type", JString "deploy"); ("targets", JArray [])];
                record_pages_myproj]
               ltac:(repeat constructor)))))).
    reflexivity.
  - refine (proj1 (proj1 runDeploy_extraction_priority
             [JObject [("type", JString "deploy");
                       ("targets",
                        JArray [JString "see https://foo.workers.dev/path"])]]
             _)).
    repeat constructor.
Defined.

Lemma extractDeployedUrl_string entries v :
  extractUrl entries = Ok (JString v) ->
  extractDeployedUrl entries =
  match deployedUrlRegex_match v with
  | Some m => Ok m
  | None => Throw (Error failed_to_find)
  end.
Proof.
  intros E. unfold extractDeployedUrl, findDeployedUrl. rewrite E.
  cbn [rbind matchUrl]. now destruct (deployedUrlRegex_match v).
Qed.

Lemma storeDeployedUrl_found entries m s :
  extractDeployedUrl entries = Ok m ->
  storeDeployedUrl entries s =
  (Ok tt, {| st_ctx := set_deployment_url (st_ctx s) m;
             st_log := st_log s ++ [EvSetUrl m] |}).
Proof.
  unfold extractDeployedUrl, storeDeployedUrl. unfold_M.
  destruct (findDeployedUrl entries); [|discriminate].
  intros H. inversion H; subst. reflexivity.
Qed.

(** An extracted value that is not a string yields no URL: it is absent, or
    it has no [match] method and the call throws. *)
Lemma extractDeployedUrl_not_string entries v :
  extractUrl entries = Ok v -> isString v = false ->
  extractDeployedUrl entries = Throw (Error failed_to_find).
Proof.
  intros E Hv. unfold extractDeployedUrl, findDeployedUrl. rewrite E.
  now destruct v.
Qed.

(** Surrounding text does not prevent a match, and is not stored. *)
Lemma pattern_drops_path_suffix :
  deployedUrlRegex_match "https://foo.workers.dev/some/path"
  = Some "https://foo.workers.dev".
Proof. reflexivity. Qed.

Lemma pattern_drops_prefix :
  deployedUrlRegex_match "Deployed to https://foo.pages.dev"
  = Some "https://foo.pages.dev".
Proof. reflexivity. Qed.

(** C10, as stated, fails: the value [https://a<LF>b.pages.dev] contains a
    substring [https://<nonempty>.pages.dev] (itself), and the extraction
    finds no URL in it, because the pattern's [.] does not match a line
    break. *)
Lemma runDeploy_pattern_line_break_counterexample :
  extractUrl [record_with_line_break] = Ok (JString url_with_line_break)
  /\ ~ ((exists m, extractDeployedUrl [record_with_line_break] = Ok m)
        <-> (exists m, contains url_with_line_break m /\ UrlShapedLoose m)).
Proof.
  split; [reflexivity|]. intros [_ H].
  destruct H as [m Hm]; [|discriminate].
  exists url_with_line_break. split.
  - exists ""%string, ""%string. reflexivity.
  - exists ("a" ++ String LF "b")%string, ".pages.dev"%string.
    repeat split; [discriminate | now left].
Qed.

(** C10, amended.  The pattern check is an unanchored substring match: for
    every extracted string value, the extraction succeeds exactly when the
    value contains a substring [https://<mid>.pages.dev] or
    [https://<mid>.workers.dev] whose [<mid>] is non-empty and free of line
    terminators; the URL found is such a substring of the value, and it is
    this substring, not the whole value, that is stored in
    [ctx.deployment.url] at line 147. *)
Theorem runDeploy_pattern_unanchored :
  forall (entries : list JSValue) (v : string),
    extractUrl entries = Ok (JString v) ->
    ((exists m, extractDeployedUrl entries = Ok m)
     <-> (exists m, contains v m /\ UrlShaped m))
    /\ (forall m, extractDeployedUrl entries = Ok m ->
          contains v m /\ UrlShaped m
          /\ forall s,
              storeDeployedUrl entries s =
              (Ok tt, {| st_ctx := set_deployment_url (st_ctx s) m;
                         st_log := st_log s ++ [EvSetUrl m] |})).
Proof.
  intros entries v E. rewrite (extractDeployedUrl_string _ _ E).
  split; [split|].
  - intros [m Hm]. destruct (deployedUrlRegex_match v) as [m'|] eqn:Ev;
      [|discriminate].
    exists m'. now apply deployedUrlRegex_match_sound.
  - intros [m [Hc Hs]].
    pose proof (deployedUrlRegex_match_complete v m Hc Hs) as H.
    destruct (deployedUrlRegex_match v) as [m'|]; [now exists m' | congruence].
  - intros m Hm.
    destruct (deployedUrlRegex_match v) as [m'|] eqn:Ev; [|discriminate].
    inversion Hm; subst.
    destruct (deployedUrlRegex_match_sound _ _ Ev) as [Hc Hs].
    repeat split; auto.
    intros s. apply storeDeployedUrl_found.
    rewrite (extractDeployedUrl_string _ _ E), Ev. reflexivity.
Qed.

Lemma runDeploy_pattern_unanchored_witness :
  (exists m, contains "see https://foo.workers.dev/path" m /\ UrlShaped m)
  /\ contains "see https://foo.workers.dev/path" "https://foo.workers.dev".
Proof.
  pose (entries :=
          [JObject [("type", JString "deploy");
                    ("targets",
                     JArray [JString "see https://foo.workers.dev/path"])]]).
  pose proof (runDeploy_pattern_unanchored entries
                "see https://foo.workers.dev/path" eq_refl) as [Hiff Hset].
  split.
  - apply (proj1 Hiff). exists "https://foo.workers.dev"%string. reflexivity.
  - exact (proj1 (Hset "https://foo.workers.dev"%string eq_refl)).
Defined.

(** ** Facts about [split] and [join] *)

Section SplitFacts.

Local Open Scope string_scope.

Variable sep : string.
Hypothesis sep_nonempty : sep <> "".

Lemma split_from_skip (s : string) (k : nat) :
  (k <= String.length s)%nat ->
  split_from sep k s = split_from sep 0 (drop k s).
Proof.
  revert k. induction s as [|c s IH]; intros k Hk.
  - now destruct k.
  - destruct k as [|k]; [reflexivity|].
    cbn [split_from drop]. apply IH. simpl in Hk. lia.
Qed.

Lemma split_step (c : ascii) (s : string) :
  startsWith sep (String c s) = false ->
  split sep (String c s) = consHead c (split sep s).
Proof. intros H. unfold split. cbn [split_from]. now rewrite H. Qed.

Lemma split_sep (t : string) : split sep (sep ++ t) = "" :: split sep t.
Proof.
  assert (Hlen : String.length sep = S (String.length sep - 1)).
  { destruct sep; [congruence | simpl; lia]. }
  pose proof (drop_append sep t) as Hd.
  pose proof (length_append sep t) as Hl.
  unfold split. destruct (sep ++ t) as [|c s'] eqn:Est.
  - simpl in Hl. lia.
  - cbn [split_from]. rewrite <- Est, startsWith_append. f_equal.
    rewrite Hlen in Hd. cbn [drop] in Hd.
    rewrite split_from_skip by (simpl in Hl; lia).
    now rewrite Hd.
Qed.

Lemma split_from_nonempty (s : string) (k : nat) : split_from sep k s <> [].
Proof.
  revert k. induction s as [|c s IH]; intros k; cbn [split_from];
    [discriminate|].
  destruct k; [|apply IH].
  destruct (startsWith sep (String c s)); [discriminate|].
  unfold consHead. now destruct (split_from sep 0 s).
Qed.

Lemma split_nonempty (s : string) : split sep s <> [].
Proof. apply split_from_nonempty. Qed.

(** Induction along the way [split] walks through a string. *)
Lemma split_induction (P : string -> Prop) :
  P "" ->
  (forall c s, startsWith sep (String c s) = false -> P s -> P (String c s)) ->
  (forall t, P t -> P (sep ++ t)) ->
  forall s, P s.
Proof.
  intros H0 Hstep Hsep s.
  remember (String.length s) as n eqn:Hn. revert s Hn.
  induction n as [n IH] using lt_wf_ind. intros s Hn.
  destruct s as [|c s]; [exact H0|].
  destruct (startsWith sep (String c s)) eqn:E.
  - apply startsWith_iff in E. destruct E as [t Ht]. rewrite Ht.
    apply Hsep. apply (IH (String.length t)); [|reflexivity].
    rewrite Hn, Ht, length_append.
    destruct sep; [congruence | simpl; lia].
  - apply Hstep; [exact E|]. apply (IH (String.length s)); [|reflexivity].
    rewrite Hn. simpl. lia.
Qed.

Lemma join_consHead (c : ascii) (l : list string) :
  l <> [] -> join sep (consHead c l) = String c (join sep l).
Proof.
  destruct l as [|x l]; [congruence|]. intros _.
  unfold join. simpl. now destruct l.
Qed.

Lemma join_cons (x : string) (l : list string) :
  l <> [] -> join sep (x :: l) = x ++ sep ++ join sep l.
Proof. destruct l; [congruence | reflexivity]. Qed.

Lemma join_split (s : string) : join sep (split sep s) = s.
Proof.
  induction s as [ | c s E IH | t IH] using split_induction.
  - reflexivity.
  - rewrite (split_step _ _ E), join_consHead by apply split_nonempty.
    now rewrite IH.
  - rewrite split_sep, join_cons by apply split_nonempty.
    now rewrite IH.
Qed.

Lemma occurs_empty_false : occurs sep "" = false.
Proof. destruct sep; [congruence | reflexivity]. Qed.

Lemma occurs_cons (c : ascii) (s : string) :
  occurs sep (String c s) = startsWith sep (String c s) || occurs sep s.
Proof. reflexivity. Qed.

Lemma split_head_prefix (s : string) (x : string) (xs : list string) :
  split sep s = x :: xs -> exists t, s = x ++ t.
Proof.
  intros H. pose proof (join_split s) as J. rewrite H in J.
  destruct xs as [|y ys].
  - exists "". rewrite append_nil_r. now rewrite <- J.
  - exists (sep ++ join sep (y :: ys)). now rewrite <- J.
Qed.

(** No piece of a split contains the separator. *)
Lemma split_pieces (s : string) :
  Forall (fun x => occurs sep x = false) (split sep s).
Proof.
  induction s as [ | c s E IH | t IH] using split_induction.
  - constructor; [apply occurs_empty_false | constructor].
  - rewrite (split_step _ _ E).
    destruct (split sep s) as [|x xs] eqn:Es;
      [now apply split_nonempty in Es|].
    inversion IH as [|? ? Hx Hxs]; subst. cbn [consHead].
    constructor; [|exact Hxs].
    rewrite occurs_cons, Hx, orb_false_r.
    destruct (startsWith sep (String c x)) eqn:Ex; [|reflexivity].
    destruct (split_head_prefix _ _ _ Es) as [t ->].
    change (String c (x ++ t)) with (String c x ++ t) in E.
    now rewrite (startsWith_extend _ _ t Ex) in E.
  - rewrite split_sep. constructor; [apply occurs_empty_false | exact IH].
Qed.

Lemma split_no_occurrence (x : string) :
  occurs sep x = false -> split sep x = [x].
Proof.
  induction x as [|c x IH]; [reflexivity|].
  rewrite occurs_cons. intros H. apply orb_false_iff in H.
  destruct H as [H1 H2]. now rewrite (split_step _ _ H1), (IH H2).
Qed.

Lemma occurs_suffix (a b : string) :
  occurs sep (a ++ b) = false -> occurs sep b = false.
Proof.
  induction a as [|c a IH]; [auto|].
  cbn [append]. rewrite occurs_cons. intros H.
  apply orb_false_iff in H. now apply IH.
Qed.

Lemma occurs_middle (a b : string) : occurs sep (a ++ sep ++ b) = true.
Proof.
  induction a as [|c a IH].
  - cbn [append]. destruct (sep ++ b) as [|c s] eqn:E;
      [destruct sep; [congruence | discriminate]|].
    rewrite occurs_cons, <- E, startsWith_append. reflexivity.
  - cbn [append]. rewrite occurs_cons, IH. apply orb_true_r.
Qed.

Hypothesis sep_border_free : BorderFree sep.

Lemma split_append_sep (p h : string) :
  occurs sep p = false -> split sep (p ++ sep ++ h) = p :: split sep h.
Proof.
  induction p as [|c p IH]; intros Hp.
  - apply split_sep.
  - assert (E : startsWith sep (String c p ++ sep ++ h) = false).
    { destruct (startsWith sep (String c p ++ sep ++ h)) eqn:E;
        [|reflexivity].
      now apply sep_border_free in E. }
    rewrite occurs_cons in Hp. apply orb_false_iff in Hp.
    cbn [append] in *. rewrite (split_step _ _ E), IH by tauto.
    reflexivity.
Qed.

Lemma split_join (xs : list string) :
  xs <> [] -> Forall (fun x => occurs sep x = false) xs ->
  split sep (join sep xs) = xs.
Proof.
  induction xs as [|x xs IH]; [congruence|]. intros _ Hall.
  inversion Hall as [|? ? Hx Hxs]; subst.
  destruct xs as [|y ys].
  - now apply split_no_occurrence.
  - rewrite join_cons by discriminate.
    rewrite split_append_sep by exact Hx.
    now rewrite IH.
Qed.

Lemma join_skipn_suffix (k : nat) (l : list string) :
  exists pre, join sep l = pre ++ join sep (skipn k l).
Proof.
  revert l. induction k as [|k IH]; intros l; [now exists ""|].
  destruct l as [|x l]; [now exists ""|].
  cbn [skipn]. destruct (IH l) as [pre Hpre].
  destruct l as [|y l].
  - exists x. rewrite skipn_nil. now rewrite append_nil_r.
  - exists (x ++ sep ++ pre). rewrite join_cons by discriminate.
    now rewrite Hpre, !append_assoc.
Qed.

End SplitFacts.

(** ** Properties of the URL normalization *)

Section NormalizeFacts.

Local Open Scope string_scope.

Lemma scheme_sep_nonempty : "://" <> "".
Proof. discriminate. Qed.

Lemma dot_nonempty : "." <> "".
Proof. discriminate. Qed.

Lemma border_free_dot : BorderFree ".".
Proof.
  intros p h Hp Hs. destruct p as [|c p]; [reflexivity|].
  cbn [append startsWith] in Hs. rewrite andb_true_r in Hs.
  rewrite occurs_cons in Hp. cbn [startsWith] in Hp.
  rewrite Hs in Hp. discriminate.
Qed.

Lemma border_free_scheme_sep : BorderFree "://".
Proof.
  intros p h Hp Hs. destruct p as [|a p]; [reflexivity|]. exfalso.
  rewrite occurs_cons in Hp. apply orb_false_iff in Hp. destruct Hp as [Hp _].
  cbn [append startsWith] in Hs, Hp.
  destruct (":" =? a)%char; [|discriminate]. cbn [andb] in Hs, Hp.
  destruct p as [|b p]; [discriminate|].
  cbn [append startsWith] in Hs, Hp.
  destruct ("/" =? b)%char; [|discriminate]. cbn [andb] in Hs, Hp.
  destruct p as [|c p]; [discriminate|].
  cbn [append startsWith] in Hs, Hp.
  destruct ("/" =? c)%char; discriminate.
Qed.

Lemma slice_last_nonempty {A : Type} (n : nat) (l : list A) :
  l <> [] -> (0 < n)%nat -> slice_last n l <> [].
Proof.
  intros Hl Hn H. unfold slice_last in H.
  apply (f_equal (@List.length A)) in H. rewrite length_skipn in H.
  destruct l; [congruence|]. cbn [List.length] in H. lia.
Qed.

Lemma slice_last_idempotent {A : Type} (n : nat) (l : list A) :
  slice_last n (slice_last n l) = slice_last n l.
Proof.
  unfold slice_last at 1. rewrite (length_skipn _ l : List.length (slice_last n l) = _).
  replace (List.length l - (List.length l - n) - n)%nat with 0%nat by lia.
  reflexivity.
Qed.

Lemma Forall_slice_last {A : Type} (P : A -> Prop) (n : nat) (l : list A) :
  Forall P l -> Forall P (slice_last n l).
Proof.
  unfold slice_last. generalize (List.length l - n)%nat as k. intros k H.
  revert k. induction H as [|x l Hx Hl IH]; intros k.
  - rewrite skipn_nil. constructor.
  - destruct k; [now constructor | apply IH].
Qed.

Lemma removeSha1_pieces url proto hostname rest :
  split "://" url = proto :: hostname :: rest ->
  removeSha1 url =
  Ok (proto ++ "://" ++ join "." (slice_last 3 (split "." hostname))).
Proof. unfold removeSha1. now intros ->. Qed.

(** The labels kept are a fixed point of a further split. *)
Lemma kept_labels_stable hostname :
  split "." (join "." (slice_last 3 (split "." hostname)))
  = slice_last 3 (split "." hostname).
Proof.
  apply (split_join "." dot_nonempty border_free_dot).
  - apply slice_last_nonempty; [apply split_nonempty | lia].
  - apply Forall_slice_last. apply (split_pieces "." dot_nonempty).
Qed.

Lemma kept_labels_no_scheme_sep hostname :
  occurs "://" hostname = false ->
  occurs "://" (join "." (slice_last 3 (split "." hostname))) = false.
Proof.
  intros H. unfold slice_last.
  destruct (join_skipn_suffix "."
              (List.length (split "." hostname) - 3) (split "." hostname))
    as [pre Hpre].
  rewrite (join_split "." dot_nonempty) in Hpre.
  rewrite Hpre in H. exact (occurs_suffix "://" _ _ H).
Qed.

Lemma split_url proto host :
  occurs "://" proto = false -> occurs "://" host = false ->
  split "://" (proto ++ "://" ++ host) = [proto; host].
Proof.
  intros Hp Hh.
  rewrite (split_append_sep "://" scheme_sep_nonempty border_free_scheme_sep)
    by exact Hp.
  now rewrite (split_no_occurrence "://" host Hh).
Qed.

Lemma removeSha1_stable url url' :
  removeSha1 url = Ok url' -> normalizePagesUrl url' = Ok url'.
Proof.
  unfold removeSha1.
  destruct (split "://" url) as [|proto [|hostname rest]] eqn:Es;
    try discriminate.
  intros H. inversion H as [Hu]. clear H.
  pose proof (split_pieces "://" scheme_sep_nonempty url) as Hp.
  rewrite Es in Hp. inversion Hp as [|? ? Hproto Hp']; subst.
  inversion Hp' as [|? ? Hhost _]; subst.
  unfold normalizePagesUrl.
  destruct (endsWith _ ".pages.dev"); [|reflexivity].
  rewrite (removeSha1_pieces _ proto
             (join "." (slice_last 3 (split "." hostname))) []).
  - now rewrite kept_labels_stable, slice_last_idempotent.
  - apply split_url; [exact Hproto|].
    now apply kept_labels_no_scheme_sep.
Qed.

Lemma normalizePagesUrl_idempotent url url' :
  normalizePagesUrl url = Ok url' -> normalizePagesUrl url' = Ok url'.
Proof.
  unfold normalizePagesUrl at 1.
  destruct (endsWith url ".pages.dev") eqn:E.
  - apply removeSha1_stable.
  - intros H. inversion H; subst. unfold normalizePagesUrl. now rewrite E.
Qed.

Lemma append_suffix_cases (a b t suf : string) :
  a ++ b = t ++ suf ->
  (exists t', b = t' ++ suf)
  \/ (exists x, x <> "" /\ suf = x ++ b /\ a = t ++ x).
Proof.
  revert t. induction a as [|c a IH]; intros t H.
  - left. now exists t.
  - destruct t as [|d t].
    + right. exists (String c a). repeat split; [discriminate | now symmetry].
    + cbn [append] in H. inversion H; subst.
      destruct (IH t H2) as [Hl | (x & Hx & Hs & Ha)]; [now left|].
      right. exists x. repeat split; auto. cbn [append]. now rewrite Ha.
Qed.

Lemma nonempty_suffix_last (t x q : string) (c : ascii) :
  t ++ x = q ++ String c "" -> x <> "" -> exists x', x = x' ++ String c "".
Proof.
  revert q. induction t as [|d t IH]; intros q H Hx.
  - now exists q.
  - destruct q as [|e q].
    + cbn [append] in H. inversion H as [[Hd Ht]].
      destruct t; [now cbn [append] in Ht | discriminate].
    + cbn [append] in H. inversion H; subst. eauto.
Qed.

Lemma endsWith_host proto host suf :
  occurs "/" suf = false ->
  endsWith (proto ++ "://" ++ host) suf = true ->
  endsWith host suf = true.
Proof.
  intros Hsuf H. apply endsWith_iff in H. destruct H as [t Ht].
  rewrite <- append_assoc in Ht.
  apply append_suffix_cases in Ht.
  destruct Ht as [[t' ->] | (x & Hx & Hs & Ha)].
  - apply endsWith_iff. now exists t'.
  - exfalso. symmetry in Ha.
    replace (proto ++ "://") with ((proto ++ ":/") ++ "/") in Ha
      by now rewrite append_assoc.
    destruct (nonempty_suffix_last _ _ _ _ Ha Hx) as [x' ->].
    rewrite append_assoc in Hs. rewrite Hs in Hsuf.
    rewrite (occurs_middle "/") in Hsuf; discriminate.
Qed.

Lemma endsWith_url proto host suf :
  endsWith host suf = true ->
  endsWith (proto ++ "://" ++ host) suf = true.
Proof.
  rewrite !endsWith_iff. intros [t ->]. exists (proto ++ "://" ++ t).
  now rewrite !append_assoc.
Qed.

End NormalizeFacts.

Lemma normalize_preview_url :
  normalizePagesUrl "https://abcd1234.myproj.pages.dev"
  = Ok "https://myproj.pages.dev".
Proof. reflexivity. Qed.

Lemma normalize_workers_url :
  normalizePagesUrl "https://foo.workers.dev" = Ok "https://foo.workers.dev".
Proof. reflexivity. Qed.

(** C6, as stated, fails on a URL of another domain whose path ends in
    [.pages.dev]: the pattern matches the whole of
    [https://foo.workers.dev/docs.pages.dev], so [runDeploy] stores it; its
    host, [foo.workers.dev], does not end in [.pages.dev]; yet normalization
    rewrites it, to [https://dev/docs.pages.dev]. *)
Lemma normalizePagesUrl_other_domain_counterexample :
  let url := "https://foo.workers.dev/docs.pages.dev" in
  extractDeployedUrl
    [JObject [("type", JString "deploy"); ("targets", JArray [JString url])]]
  = Ok url
  /\ hostOf url = "foo.workers.dev"
  /\ endsWith (hostOf url) ".pages.dev" = false
  /\ normalizePagesUrl url = Ok "https://dev/docs.pages.dev"
  /\ normalizePagesUrl url <> Ok url.
Proof.
  cbv zeta. repeat split; try reflexivity. discriminate.
Qed.

(** C6, amended.  Normalization looks at the URL text, not at its host.  A
    text that does not end in [.pages.dev] is left as it is.  A text that
    ends in [.pages.dev] is cut at "://": the piece before the first "://"
    is kept, and of the piece after it (what the code calls the hostname,
    which runs to the next "://" or to the end, path included) the last three
    dot-separated labels are kept.  So for [proto://host] with no further
    "://": a host ending in [.pages.dev] is cut to its last three labels,
    [<hash>.<project>.pages.dev] becomes [<project>.pages.dev], and a host
    not ending in [.pages.dev] leaves the URL as it is.  Normalization is
    idempotent: normalizing a normalized URL yields the same URL. *)
Theorem normalizePagesUrl_cuts_url_text :
  (forall url : string,
      endsWith url ".pages.dev" = false -> normalizePagesUrl url = Ok url)
  /\ (forall url proto hostname rest,
      endsWith url ".pages.dev" = true ->
      split "://" url = proto :: hostname :: rest ->
      normalizePagesUrl url
      = Ok (proto ++ "://"
            ++ join "." (slice_last 3 (split "." hostname)))%string)
  /\ (forall proto host : string,
      occurs "://" proto = false -> occurs "://" host = false ->
      endsWith host ".pages.dev" = true ->
      normalizePagesUrl (proto ++ "://" ++ host)
      = Ok (proto ++ "://" ++ join "." (slice_last 3 (split "." host)))%string)
  /\ (forall proto host hash project : string,
      occurs "://" proto = false -> occurs "://" host = false ->
      occurs "." hash = false -> occurs "." project = false ->
      host = (hash ++ "." ++ project ++ ".pages.dev")%string ->
      normalizePagesUrl (proto ++ "://" ++ host)
      = Ok (proto ++ "://" ++ project ++ ".pages.dev")%string)
  /\ (forall proto host : string,
      endsWith host ".pages.dev" = false ->
      normalizePagesUrl (proto ++ "://" ++ host)
      = Ok (proto ++ "://" ++ host)%string)
  /\ (forall url url' : string,
      normalizePagesUrl url = Ok url' -> normalizePagesUrl url' = Ok url').
Proof.
  assert (Hcut : forall url proto hostname rest,
      endsWith url ".pages.dev" = true ->
      split "://" url = proto :: hostname :: rest ->
      normalizePagesUrl url
      = Ok (proto ++ "://"
            ++ join "." (slice_last 3 (split "." hostname)))%string).
  { intros url proto hostname rest He Hs. unfold normalizePagesUrl.
    rewrite He. exact (removeSha1_pieces _ _ _ _ Hs). }
  assert (Hkeep : forall proto host : string,
      occurs "://" proto = false -> occurs "://" host = false ->
      endsWith host ".pages.dev" = true ->
      normalizePagesUrl (proto ++ "://" ++ host)
      = Ok (proto ++ "://" ++ join "." (slice_last 3 (split "." host)))%string).
  { intros proto host Hp Hh He.
    apply (Hcut _ proto host []);
      [exact (endsWith_url proto host _ He) | now apply split_url]. }
  split; [|split; [exact Hcut | split; [exact Hkeep | split; [|split]]]].
  - intros url He. unfold normalizePagesUrl. now rewrite He.
  - intros proto host hash project Hp Hh Hhash Hproj ->.
    rewrite Hkeep; auto.
    + change (hash ++ "." ++ project ++ ".pages.dev")%string
        with (join "." [hash; project; "pages"; "dev"]%string).
      rewrite (split_join "." dot_nonempty border_free_dot);
        [reflexivity | discriminate | now repeat constructor].
    + apply endsWith_iff. exists (hash ++ "." ++ project)%string.
      now rewrite !append_assoc.
  - intros proto host He. unfold normalizePagesUrl.
    destruct (endsWith (proto ++ "://" ++ host) ".pages.dev") eqn:E;
      [|reflexivity].
    apply endsWith_host in E; [congruence | reflexivity].
  - apply normalizePagesUrl_idempotent.
Qed.

Lemma normalizePagesUrl_cuts_url_text_witness :
  normalizePagesUrl "https://abcd1234.myproj.pages.dev"
  = Ok "https://myproj.pages.dev"
  /\ normalizePagesUrl "https://foo.workers.dev" = Ok "https://foo.workers.dev"
  /\ normalizePagesUrl "https://myproj.pages.dev"
     = Ok "https://myproj.pages.dev"
  /\ normalizePagesUrl "https://foo.workers.dev/docs.pages.dev"
     = Ok "https://dev/docs.pages.dev"
  /\ normalizePagesUrl "https://x://y.pages.dev" = Ok "https://x".
Proof.
  destruct normalizePagesUrl_cuts_url_text
    as (Hother & Hcut & Hkeep & Hproj & Hhost & Hidem).
  split; [|split; [|split; [|split]]].
  - exact (Hproj "https" "abcd1234.myproj.pages.dev" "abcd1234" "myproj"
             eq_refl eq_refl eq_refl eq_refl eq_refl).
  - exact (Hother "https://foo.workers.dev" eq_refl).
  - exact (Hidem "https://abcd1234.myproj.pages.dev"
             "https://myproj.pages.dev" eq_refl).
  - exact (Hcut "https://foo.workers.dev/docs.pages.dev"
             "https" "foo.workers.dev/docs.pages.dev" [] eq_refl eq_refl).
  - exact (Hcut "https://x://y.pages.dev" "https" "x" ["y.pages.dev"]
             eq_refl eq_refl).
Defined.

(** ** Properties of [runDeploy] *)

Section RunDeployFacts.

Variable h : Host.

Lemma extractDeployedUrl_throws entries e :
  extractDeployedUrl entries = Throw e -> e = Error failed_to_find.
Proof.
  unfold extractDeployedUrl. destruct (findDeployedUrl entries);
    [discriminate | congruence].
Qed.

Lemma deployOutcome_throws fs e :
  deployOutcome h fs = Throw e -> e = Error failed_to_find.
Proof.
  unfold deployOutcome. destruct (fs (outputFile h)); [|congruence].
  destruct (parse_entries h _); [apply extractDeployedUrl_throws | congruence].
Qed.

Lemma extractDeployedUrl_shaped entries m :
  extractDeployedUrl entries = Ok m -> UrlShaped m.
Proof.
  unfold extractDeployedUrl, findDeployedUrl.
  destruct (extractUrl entries) as [url|]; [|discriminate].
  cbn [rbind]. destruct url as [ | | | | v | | ]; try discriminate.
  cbn [matchUrl rbind].
  destruct (deployedUrlRegex_match v) as [m'|] eqn:Ev; [|discriminate].
  intros H. inversion H; subst.
  now apply deployedUrlRegex_match_sound in Ev.
Qed.

Lemma deployOutcome_shaped fs m : deployOutcome h fs = Ok m -> UrlShaped m.
Proof.
  unfold deployOutcome. destruct (fs (outputFile h)); [|discriminate].
  destruct (parse_entries h _); [apply extractDeployedUrl_shaped|discriminate].
Qed.

(** A URL found by the pattern always splits into a scheme and a rest, so
    the destructuring of line 157 finds its [hostname]. *)
Lemma removeSha1_shaped m : UrlShaped m -> exists u, removeSha1 m = Ok u.
Proof.
  intros (mid & d & -> & _).
  change ("https://" ++ mid ++ d)%string
    with ("https" ++ "://" ++ (mid ++ d))%string.
  pose proof (split_append_sep "://" scheme_sep_nonempty
                border_free_scheme_sep "https" (mid ++ d)%string eq_refl) as E.
  destruct (split "://" (mid ++ d)) as [|x xs] eqn:Ex;
    [now apply (split_nonempty "://") in Ex|].
  eexists. apply (removeSha1_pieces _ _ _ _ E).
Qed.

Lemma try_readDeployedUrl fs s :
  try_catch (readDeployedUrl h fs (outputFile h))
            (throw (Error failed_to_find)) s =
  match deployOutcome h fs with
  | Ok m =>
      (Ok tt,
       {| st_ctx := set_deployment_url (st_ctx s) m;
          st_log := st_log s ++ [EvReadFile (outputFile h); EvSetUrl m] |})
  | Throw _ =>
      (Throw (Error failed_to_find),
       {| st_ctx := st_ctx s;
          st_log := st_log s ++ [EvReadFile (outputFile h)] |})
  end.
Proof.
  unfold readDeployedUrl, readFile, storeDeployedUrl, deployOutcome,
    extractDeployedUrl. unfold_M.
  destruct (fs (outputFile h)) as [contents|]; [|reflexivity].
  destruct (parse_entries h (output_lines contents)) as [entries|];
    [|reflexivity].
  destruct (findDeployedUrl entries) as [m|]; [|reflexivity].
  cbn [st_ctx st_log]. now rewrite <- app_assoc.
Qed.

(** The whole of [runDeploy] once the account is known and the deploy command
    has run. *)
Lemma runDeploy_after_command s id fs :
  account_id (st_ctx s) = Some id -> truthy id = true ->
  runCommand h (deployCmd h (st_ctx s)) (project_path (st_ctx s))
    (deployEnv h id) = Ok fs ->
  runDeploy h s =
  let ran := EvRunCommand (deployCmd h (st_ctx s)) (project_path (st_ctx s))
               (deployEnv h id) in
  match deployOutcome h fs with
  | Throw _ =>
      (Throw (Error failed_to_find),
       {| st_ctx := st_ctx s;
          st_log := st_log s ++ [ran; EvReadFile (outputFile h)] |})
  | Ok m =>
      if endsWith m ".pages.dev" then
        match removeSha1 m with
        | Ok u =>
            (Ok tt,
             {| st_ctx := set_deployment_url (st_ctx s) u;
                st_log := st_log s ++ [ran; EvReadFile (outputFile h);
                                       EvSetUrl m; EvSetUrl u] |})
        | Throw e =>
            (Throw e,
             {| st_ctx := set_deployment_url (st_ctx s) m;
                st_log := st_log s ++ [ran; EvReadFile (outputFile h);
                                       EvSetUrl m] |})
        end
      else
        (Ok tt,
         {| st_ctx := set_deployment_url (st_ctx s) m;
            st_log := st_log s ++ [ran; EvReadFile (outputFile h);
                                   EvSetUrl m] |})
  end.
Proof.
  intros Hid Ht Hrun. unfold runDeploy.
  unfold bind at 1. unfold get_ctx at 1. rewrite Hid, Ht. cbn [negb].
  unfold bind at 1. unfold emit at 1.
  unfold bind at 1. unfold lift at 1. cbn [st_ctx st_log]. rewrite Hrun.
  unfold bind at 1. rewrite try_readDeployedUrl. cbn [st_ctx st_log].
  destruct (deployOutcome h fs) as [m|e].
  - unfold bind at 1. unfold get_ctx. cbn [st_ctx st_log deployment_url
      set_deployment_url].
    rewrite <- app_assoc. cbn [app].
    destruct (endsWith m ".pages.dev").
    + unfold bind, lift, assign_url. destruct (removeSha1 m) as [u|e];
        [|reflexivity].
      cbn [st_ctx st_log]. rewrite <- app_assoc. reflexivity.
    + reflexivity.
  - rewrite <- app_assoc. reflexivity.
Qed.

Lemma parse_entries_failure lines l e :
  In l lines -> JSON_parse h l = Throw e ->
  exists e', parse_entries h lines = Throw e'.
Proof.
  induction lines as [|x rest IH]; [contradiction|].
  intros [-> | Hin] He; cbn [parse_entries].
  - rewrite He. now eexists.
  - destruct (JSON_parse h x); [|now eexists].
    cbn [rbind]. destruct (IH Hin He) as [e' ->]. now eexists.
Qed.

End RunDeployFacts.

(** C5.  Once the account is known and the deploy command has run: if the
    output-capture file is absent, or empty, or has a line (empty lines are
    dropped before parsing) on which [JSON.parse] throws, or its records
    yield no URL matching the pattern, then [runDeploy] throws an [Error]
    whose message is exactly "Failed to find deployment url." -- whatever
    exception the parser or the extraction raised. *)
Theorem runDeploy_failed_to_find_url :
  forall (h : Host) (s : State) (id : string) (fs : string -> option string),
    account_id (st_ctx s) = Some id -> truthy id = true ->
    runCommand h (deployCmd h (st_ctx s)) (project_path (st_ctx s))
      (deployEnv h id) = Ok fs ->
    (fs (outputFile h) = None
     \/ fs (outputFile h) = Some ""%string
     \/ (exists contents l e,
           fs (outputFile h) = Some contents
           /\ In l (output_lines contents)
           /\ JSON_parse h l = Throw e)
     \/ (exists contents entries,
           fs (outputFile h) = Some contents
           /\ parse_entries h (output_lines contents) = Ok entries
           /\ forall m, findDeployedUrl entries <> Ok m)
     \/ (exists contents entries,
           fs (outputFile h) = Some contents
           /\ parse_entries h (output_lines contents) = Ok entries
           /\ Forall (fun e => isOutputRecord e = true) entries
           /\ forall v m, candidate entries = Some (JString v) ->
                deployedUrlRegex_match v <> Some m)) ->
    fst (runDeploy h s) = Throw (Error "Failed to find deployment url.").
Proof.
  intros h s id fs Hid Ht Hrun Hcase.
  rewrite (runDeploy_after_command h s id fs Hid Ht Hrun). cbv zeta.
  assert (Hout : exists e, deployOutcome h fs = Throw e).
  { unfold deployOutcome.
    destruct Hcase as [-> | [-> | [(c & l & e & -> & Hin & He)
      | [(c & entries & -> & -> & Hno)
        | (c & entries & -> & -> & Hall & Hno)]]]].
    - now eexists.
    - now eexists.
    - destruct (parse_entries_failure h _ _ _ Hin He) as [e' ->].
      now eexists.
    - unfold extractDeployedUrl.
      destruct (findDeployedUrl entries) as [m|]; [|now eexists].
      now destruct (Hno m).
    - rewrite (extractDeployedUrl_records entries Hall).
      destruct (candidate entries) as [[ | | | | v | | ]|]; try now eexists.
      destruct (deployedUrlRegex_match v) as [m|] eqn:Ev; [|now eexists].
      now destruct (Hno v m eq_refl). }
  destruct Hout as [e ->]. reflexivity.
Qed.

Lemma runDeploy_failed_to_find_url_witness :
  fst (runDeploy (sample_host None true)
         (sample_state (sample_ctx "workers" None None)))
  = Throw (Error "Failed to find deployment url.")
  /\ fst (runDeploy (sample_host (Some ""%string) true)
            (sample_state (sample_ctx "workers" None None)))
     = Throw (Error "Failed to find deployment url.")
  /\ fst (runDeploy
            (sample_host
               (Some (line_deploy_foo ++ String LF "{not json")%string) true)
            (sample_state (sample_ctx "workers" None None)))
     = Throw (Error "Failed to find deployment url.").
Proof.
  split; [|split].
  - eapply (runDeploy_failed_to_find_url (sample_host None true));
      [reflexivity | reflexivity | reflexivity |].
    left. reflexivity.
  - eapply (runDeploy_failed_to_find_url (sample_host (Some ""%string) true));
      [reflexivity | reflexivity | reflexivity |].
    right. left. reflexivity.
  - eapply (runDeploy_failed_to_find_url
              (sample_host
                 (Some (line_deploy_foo ++ String LF "{not json")%string)
                 true));
      [reflexivity | reflexivity | reflexivity |].
    right. right. left.
    exists (line_deploy_foo ++ String LF "{not json")%string,
      "{not json"%string, SyntaxError.
    split; [reflexivity | split; [|reflexivity]].
    right. left. reflexivity.
Defined.

(** C9, as stated, fails: on a pages.dev deployment [runDeploy] assigns
    [ctx.deployment.url] twice -- the URL matched at line 147, then the
    normalized URL at line 160. *)
Lemma runDeploy_writes_url_twice_counterexample :
  let r := runDeploy (sample_host (Some line_pages_myproj) true)
             (sample_state (sample_ctx "pages" None None)) in
  fst r = Ok tt
  /\ url_writes (st_log (snd r))
     = ["https://abcd1234.myproj.pages.dev"; "https://myproj.pages.dev"]%string
  /\ ~ (List.length (url_writes (st_log (snd r))) <= 1)%nat.
Proof.
  split; [reflexivity | split; [reflexivity|]].
  vm_compute. intros H. apply le_S_n in H. inversion H.
Qed.

(** C9, amended.  [runDeploy] assigns [ctx.deployment.url] only on its
    success path: when it throws, the context is exactly as before the call
    and no assignment was made; when it returns, the URL was assigned once
    with the text matched by the pattern and, if that text ends in
    [.pages.dev], a second time with the normalized URL, and
    [ctx.deployment.url] is defined and holds the normalized URL. *)
Theorem runDeploy_url_written_on_success_only :
  forall (h : Host) (s : State),
    exists evs,
      st_log (snd (runDeploy h s)) = st_log s ++ evs
      /\ match fst (runDeploy h s) with
         | Throw _ =>
             st_ctx (snd (runDeploy h s)) = st_ctx s /\ url_writes evs = []
         | Ok _ =>
             exists m u,
               UrlShaped m
               /\ normalizePagesUrl m = Ok u
               /\ deployment_url (st_ctx (snd (runDeploy h s))) = Some u
               /\ url_writes evs
                  = (if endsWith m ".pages.dev" then [m; u] else [m])
         end.
Proof.
  intros h s.
  destruct (account_id (st_ctx s)) as [id|] eqn:Hid.
  2:{ exists []. unfold runDeploy, bind, get_ctx. rewrite Hid.
      cbn. now rewrite app_nil_r. }
  destruct (truthy id) eqn:Ht.
  2:{ exists []. unfold runDeploy, bind, get_ctx. rewrite Hid, Ht.
      cbn. now rewrite app_nil_r. }
  destruct (runCommand h (deployCmd h (st_ctx s)) (project_path (st_ctx s))
              (deployEnv h id)) as [fs|e] eqn:Hrun.
  2:{ eexists. unfold runDeploy, bind, get_ctx, emit, lift.
      rewrite Hid, Ht. cbn [negb st_ctx st_log]. rewrite Hrun.
      cbn [fst snd st_ctx st_log]. split; [reflexivity|]. now split. }
  rewrite (runDeploy_after_command h s id fs Hid Ht Hrun). cbv zeta.
  destruct (deployOutcome h fs) as [m|e] eqn:Hout.
  - pose proof (deployOutcome_shaped h fs m Hout) as Hshape.
    destruct (removeSha1_shaped m Hshape) as [u Hu].
    unfold normalizePagesUrl.
    destruct (endsWith m ".pages.dev") eqn:He.
    + rewrite Hu. eexists. cbn [fst snd st_ctx st_log].
      split; [reflexivity|]. exists m, u. rewrite He. now repeat split.
    + eexists. cbn [fst snd st_ctx st_log].
      split; [reflexivity|]. exists m, m. rewrite He. now repeat split.
  - eexists. cbn [fst snd st_ctx st_log]. split; [reflexivity|]. now split.
Qed.

(** ** Properties of [isDeployable] *)

Lemma replace_crlf_no_CR (s : string) :
  occurs (String CR "") s = false -> replace_crlf s = s.
Proof.
  induction s as [|c s IH]; [reflexivity|].
  rewrite (occurs_cons (String CR "")). cbn [startsWith].
  rewrite andb_true_r. intros H. apply orb_false_iff in H.
  destruct H as [Hc Hs]. cbn [replace_crlf].
  rewrite Ascii.eqb_sym in Hc. rewrite Hc. cbn [andb].
  rewrite (IH Hs). now destruct s.
Qed.

(** A line without carriage returns that ends in CR LF comes out ending in
    LF, and the conversion goes on with what follows. *)
Lemma replace_crlf_line (line rest : string) :
  occurs (String CR "") line = false ->
  replace_crlf (line ++ String CR (String LF rest))
  = (line ++ String LF (replace_crlf rest))%string.
Proof.
  induction line as [|c line IH]; intros H.
  - cbn [append replace_crlf]. now rewrite !Ascii.eqb_refl.
  - rewrite (occurs_cons (String CR "")) in H. cbn [startsWith] in H.
    rewrite andb_true_r in H. apply orb_false_iff in H.
    destruct H as [Hc Hs]. rewrite Ascii.eqb_sym in Hc.
    cbn [append replace_crlf]. rewrite Hc. cbn [andb].
    rewrite <- (IH Hs). now destruct line.
Qed.

(** Lines without carriage returns that are joined by CR LF come out joined
    by LF. *)
Lemma replace_crlf_joined_lines (lines : list string) :
  Forall (fun l => occurs (String CR "") l = false) lines ->
  replace_crlf (join (String CR (String LF "")) lines)
  = join (String LF "") lines.
Proof.
  induction lines as [|l rest IH]; intros Hall; [reflexivity|].
  inversion Hall as [|? ? Hl Hrest]; subst.
  destruct rest as [|l2 rest].
  - cbn [join String.concat]. now apply replace_crlf_no_CR.
  - change (join (String CR (String LF "")) (l :: l2 :: rest))
      with (l ++ String CR (String LF
                (join (String CR (String LF "")) (l2 :: rest))))%string.
    rewrite (replace_crlf_line _ _ Hl), (IH Hrest). reflexivity.
Qed.

(** C7.  When the template's platform is "pages", [isDeployable] returns
    [true] with the state untouched -- no configuration file is looked for or
    read -- whatever the collaborators are.  Otherwise the configuration is
    read: from the JSON/JSONC file when it exists, and then the TOML file is
    not read; else from the TOML file, parsed after [\r\n] has been replaced
    by [\n]; and the result is [true] exactly when [hasBinding] of the parsed
    tree is [false].  The replacement is what the parser sees: for a TOML
    file whose lines are joined by CR LF, the answer is the one for the tree
    the parser gives for the same lines joined by LF, and a TOML text with no
    carriage return is parsed as it is. *)
Theorem isDeployable_pages_or_no_binding :
  forall (h : Host) (s : State),
    (template_platform (st_ctx s) = "pages"%string ->
       isDeployable h s = (Ok true, s))
    /\ (template_platform (st_ctx s) <> "pages"%string ->
        (forall str,
            wranglerJsonExists h (st_ctx s) = true ->
            readWranglerJson h (st_ctx s) = Ok str ->
            isDeployable h s =
            (Ok (negb (hasBinding (jsoncParse h str))),
             {| st_ctx := st_ctx s;
                st_log := st_log s
                          ++ [EvWranglerJsonExists; EvReadWranglerJson] |}))
        /\ (forall str tree,
            wranglerJsonExists h (st_ctx s) = false ->
            readWranglerToml h (st_ctx s) = Ok str ->
            TOML_parse h (replace_crlf str) = Ok tree ->
            isDeployable h s =
            (Ok (negb (hasBinding tree)),
             {| st_ctx := st_ctx s;
                st_log := st_log s
                          ++ [EvWranglerJsonExists; EvReadWranglerToml] |}))
        /\ (forall lines tree,
            wranglerJsonExists h (st_ctx s) = false ->
            readWranglerToml h (st_ctx s)
            = Ok (join (String CR (String LF "")) lines) ->
            Forall (fun l => occurs (String CR "") l = false) lines ->
            TOML_parse h (join (String LF "") lines) = Ok tree ->
            isDeployable h s =
            (Ok (negb (hasBinding tree)),
             {| st_ctx := st_ctx s;
                st_log := st_log s
                          ++ [EvWranglerJsonExists; EvReadWranglerToml] |}))
        /\ (forall str tree,
            wranglerJsonExists h (st_ctx s) = false ->
            readWranglerToml h (st_ctx s) = Ok str ->
            occurs (String CR "") str = false ->
            TOML_parse h str = Ok tree ->
            isDeployable h s =
            (Ok (negb (hasBinding tree)),
             {| st_ctx := st_ctx s;
                st_log := st_log s
                          ++ [EvWranglerJsonExists; EvReadWranglerToml] |}))).
Proof.
  intros h s. split; [|intros Hp].
  - intros Hp. unfold isDeployable. unfold_M. now rewrite Hp.
  - assert (Htoml : forall str tree,
              wranglerJsonExists h (st_ctx s) = false ->
              readWranglerToml h (st_ctx s) = Ok str ->
              TOML_parse h (replace_crlf str) = Ok tree ->
              isDeployable h s =
              (Ok (negb (hasBinding tree)),
               {| st_ctx := st_ctx s;
                  st_log := st_log s
                            ++ [EvWranglerJsonExists; EvReadWranglerToml] |})).
    { intros str tree Hex Hread Hparse. apply String.eqb_neq in Hp.
      unfold isDeployable, readWranglerConfig. unfold_M.
      rewrite Hp, Hex. unfold_M. rewrite Hread, Hparse.
      now rewrite <- app_assoc. }
    split; [|split; [exact Htoml | split]].
    + intros str Hex Hread. apply String.eqb_neq in Hp.
      unfold isDeployable, readWranglerConfig. unfold_M.
      rewrite Hp, Hex. unfold_M. rewrite Hread. now rewrite <- app_assoc.
    + intros lines tree Hex Hread Hlines Hparse.
      apply (Htoml _ tree Hex Hread).
      now rewrite (replace_crlf_joined_lines lines Hlines).
    + intros str tree Hex Hread Hcr Hparse.
      apply (Htoml _ tree Hex Hread).
      now rewrite (replace_crlf_no_CR str Hcr).
Qed.

(** On the pages platform nothing is read; a TOML file with CR LF line ends
    is answered for by the tree of its LF form, which the sample parser
    gives for that form only. *)
Lemma isDeployable_pages_or_no_binding_witness :
  isDeployable (sample_host None true)
    (sample_state (sample_ctx "pages" None None))
  = (Ok true, sample_state (sample_ctx "pages" None None))
  /\ fst (isDeployable (sample_host None true)
            (sample_state (sample_ctx "workers" None None)))
     = Ok true
  /\ fst (isDeployable sample_host_crlf
            (sample_state (sample_ctx "workers" None None)))
     = Ok false.
Proof.
  split; [|split].
  - exact (proj1 (isDeployable_pages_or_no_binding (sample_host None true)
                    (sample_state (sample_ctx "pages" None None))) eq_refl).
  - assert (Hne : template_platform
                    (st_ctx (sample_state (sample_ctx "workers" None None)))
                  <> "pages"%string) by discriminate.
    rewrite (proj1 (proj2 (proj2 (isDeployable_pages_or_no_binding
                             (sample_host None true)
                             (sample_state (sample_ctx "workers" None None)))
                      Hne))
               "name = x"%string (JObject [("name", JString "x")])
               eq_refl eq_refl eq_refl).
    reflexivity.
  - assert (Hne : template_platform
                    (st_ctx (sample_state (sample_ctx "workers" None None)))
                  <> "pages"%string) by discriminate.
    rewrite (proj1 (proj2 (proj2 (proj2 (isDeployable_pages_or_no_binding
                             sample_host_crlf
                             (sample_state (sample_ctx "workers" None None)))
                      Hne)))
               ["[[kv_namespaces]]"; "binding = KV"]%string
               (JObject
                  [("kv_namespaces",
                    JArray [JObject [("binding", JString "KV")]])])
               eq_refl eq_refl
               ltac:(repeat constructor) eq_refl).
    reflexivity.
Defined.

(** ** Properties of [maybeOpenBrowser] *)

(** C8.  [maybeOpenBrowser] opens the browser only when the poll of the
    deployment URL succeeded and the [open] argument is set: the events it
    adds contain an [openInBrowser] exactly when a (non-empty) deployment URL
    is set, polling it answered [true] and [ctx.args.open] is [true]; if a
    condition fails, or no deployment URL is set, the browser is not opened.
    The context is left as it was and nothing is thrown. *)
Theorem maybeOpenBrowser_opens_only_after_poll_and_request :
  forall (h : Host) (s : State),
    exists evs,
      maybeOpenBrowser h s
      = (Ok tt, {| st_ctx := st_ctx s; st_log := st_log s ++ evs |})
      /\ forall u,
          In (EvOpenInBrowser u) evs
          <-> (deployment_url (st_ctx s) = Some u
               /\ truthy u = true
               /\ poll h u = true
               /\ args_open (st_ctx s) = Some true).
Proof.
  intros h s. unfold maybeOpenBrowser. unfold_M.
  destruct (deployment_url (st_ctx s)) as [url|] eqn:Hu.
  2:{ exists []. rewrite app_nil_r. split; [now destruct s|].
      intros u. split; [contradiction | intros [H _]; discriminate]. }
  destruct (truthy url) eqn:Ht.
  2:{ exists []. rewrite app_nil_r. split; [now destruct s|].
      intros u. split; [contradiction|]. intros (H & Htu & _).
      inversion H; subst. congruence. }
  destruct (poll h url) eqn:Hp.
  2:{ exists [EvPoll url]. split; [reflexivity|].
      intros u. split.
      - intros [H | []]. discriminate.
      - intros (H & _ & Hpu & _). inversion H; subst. congruence. }
  destruct (args_open (st_ctx s)) as [[|]|] eqn:Ho.
  - exists [EvPoll url; EvOpenInBrowser url].
    split; [cbn [st_ctx st_log]; now rewrite <- app_assoc|].
    intros u. split.
    + intros [H | [H | []]]; [discriminate|]. inversion H; subst. auto.
    + intros (H & _). inversion H; subst. right. now left.
  - exists [EvPoll url]. split; [reflexivity|].
    intros u. split.
    + intros [H | []]. discriminate.
    + intros (_ & _ & _ & H). discriminate.
  - exists [EvPoll url]. split; [reflexivity|].
    intros u. split.
    + intros [H | []]. discriminate.
    + intros (_ & _ & _ & H). discriminate.
Qed.

(** ** Worked examples *)

(** The deployment of the specification's example, run end to end: the
    record [{"type":"pages-deploy","url":"https://abcd1234.myproj.pages.dev"}]
    leaves [https://myproj.pages.dev] in the context. *)
Lemma runDeploy_pages_example :
  let r := runDeploy (sample_host (Some line_pages_myproj) true)
             (sample_state (sample_ctx "pages" None None)) in
  fst r = Ok tt
  /\ deployment_url (st_ctx (snd r)) = Some "https://myproj.pages.dev"%string.
Proof. split; reflexivity. Qed.

Lemma runDeploy_workers_example :
  let r := runDeploy (sample_host (Some line_deploy_foo) true)
             (sample_state (sample_ctx "workers" None None)) in
  fst r = Ok tt
  /\ deployment_url (st_ctx (snd r)) = Some "https://foo.workers.dev"%string
  /\ url_writes (st_log (snd r)) = ["https://foo.workers.dev"%string].
Proof. repeat split; reflexivity. Qed.

(** Without an account nothing is run and the message is the other one. *)
Lemma runDeploy_requires_account h s :
  account_id (st_ctx s) = None ->
  runDeploy h s = (Throw (Error "Failed to read Cloudflare account."), s).
Proof. intros H. unfold runDeploy, bind, get_ctx. now rewrite H. Qed.

(** [runDeploy] from the captured output to the stored URL: the entries
    are parsed, the URL is extracted, normalized and left in the context. *)
Lemma runDeploy_end_to_end h s id fs contents entries m u :
  account_id (st_ctx s) = Some id -> truthy id = true ->
  runCommand h (deployCmd h (st_ctx s)) (project_path (st_ctx s))
    (deployEnv h id) = Ok fs ->
  fs (outputFile h) = Some contents ->
  parse_entries h (output_lines contents) = Ok entries ->
  extractDeployedUrl entries = Ok m ->
  normalizePagesUrl m = Ok u ->
  fst (runDeploy h s) = Ok tt
  /\ st_ctx (snd (runDeploy h s)) = set_deployment_url (st_ctx s) u.
Proof.
  intros Hid Ht Hrun Hfs Hparse Hm Hu.
  rewrite (runDeploy_after_command h s id fs Hid Ht Hrun). cbv zeta.
  unfold deployOutcome. rewrite Hfs, Hparse, Hm.
  unfold normalizePagesUrl in Hu.
  destruct (endsWith m ".pages.dev").
  - rewrite Hu. now split.
  - inversion Hu; subst. now split.
Qed.

(** [maybeOpenBrowser] on the three kinds of context. *)
Lemma maybeOpenBrowser_opens :
  st_log (snd (maybeOpenBrowser (sample_host None true)
                 (sample_state
                    (sample_ctx "pages" (Some "https://myproj.pages.dev")
                       (Some true)))))
  = [EvPoll "https://myproj.pages.dev";
     EvOpenInBrowser "https://myproj.pages.dev"].
Proof. reflexivity. Qed.

Lemma maybeOpenBrowser_poll_failed :
  st_log (snd (maybeOpenBrowser (sample_host None false)
                 (sample_state
                    (sample_ctx "pages" (Some "https://myproj.pages.dev")
                       (Some true)))))
  = [EvPoll "https://myproj.pages.dev"].
Proof. reflexivity. Qed.

Lemma maybeOpenBrowser_not_requested :
  st_log (snd (maybeOpenBrowser (sample_host None true)
                 (sample_state
                    (sample_ctx "pages" (Some "https://myproj.pages.dev")
                       None))))
  = [EvPoll "https://myproj.pages.dev"].
Proof. reflexivity. Qed.

Lemma maybeOpenBrowser_no_url :
  st_log (snd (maybeOpenBrowser (sample_host None true)
                 (sample_state (sample_ctx "pages" None (Some true)))))
  = [].
Proof. reflexivity. Qed.

(** ** Further properties of [hasBinding] *)

(** X1.  [hasBinding] looks at one key per mapping: the answer for a mapping is
    decided by the first key that is not "assets" and by that key's value.
    The "assets" entries in front of it, the entries behind it and, for a
    sequence, the elements behind the first may be replaced by anything. *)
Theorem hasBinding_ignores_later_keys :
  forall (pre rest rest' : list (string * JSValue)) (k : string) (v : JSValue)
         (e : JSValue) (es es' : list JSValue),
    Forall (fun kv => fst kv = "assets"%string) pre ->
    k <> "assets"%string ->
    hasBinding (JObject (pre ++ (k, v) :: rest))
    = hasBinding (JObject ((k, v) :: rest'))
    /\ hasBinding (JObject (pre ++ (k, v) :: rest))
       = (isBindingKey k || hasBinding v)
    /\ hasBinding (JArray (e :: es)) = hasBinding (JArray (e :: es'))
    /\ hasBinding (JArray (e :: es)) = hasBinding e.
Proof.
  intros pre rest rest' k v e es es' Hpre Hk.
  apply String.eqb_neq in Hk.
  assert (Hf : forall r, firstRemaining (pre ++ (k, v) :: r) = Some (k, v)).
  { intros r. induction Hpre as [|[k0 v0] pre H0 _ IH]; simpl.
    - now rewrite Hk.
    - simpl in H0. subst k0. exact IH. }
  rewrite !hasBinding_object, !hasBinding_props_firstRemaining, Hf.
  cbn [firstRemaining]. rewrite Hk.
  rewrite !hasBinding_array, !hasBinding_elems_head.
  repeat split; now destruct (isBindingKey k).
Qed.

Lemma hasBinding_ignores_later_keys_witness :
  hasBinding
    (JObject [("assets", JObject [("binding", JString "ASSETS")]);
              ("name", JString "my-worker");
              ("kv_namespaces",
               JArray [JObject [("binding", JString "KV")]])])
  = hasBinding (JObject [("name", JString "my-worker")]).
Proof.
  refine (proj1 (hasBinding_ignores_later_keys
                   [("assets", JObject [("binding", JString "ASSETS")])]
                   [("kv_namespaces",
                     JArray [JObject [("binding", JString "KV")]])]
                   [] "name" (JString "my-worker") JNull [] [] _ _)).
  - repeat constructor.
  - discriminate.
Defined.

(** ** Further properties of [isDeployable] and [readWranglerConfig] *)

(** X2.  [isDeployable] never changes the context and consults at most one
    configuration file: nothing on the pages platform; otherwise it asks
    whether the JSON file exists and then reads either that file or the TOML
    file, the latter only when the JSON file does not exist. *)
Theorem isDeployable_reads_one_file :
  forall (h : Host) (s : State),
    exists evs,
      st_log (snd (isDeployable h s)) = st_log s ++ evs
      /\ st_ctx (snd (isDeployable h s)) = st_ctx s
      /\ (evs = [] /\ template_platform (st_ctx s) = "pages"%string
          \/ evs = [EvWranglerJsonExists; EvReadWranglerJson]
             /\ wranglerJsonExists h (st_ctx s) = true
          \/ evs = [EvWranglerJsonExists; EvReadWranglerToml]
             /\ wranglerJsonExists h (st_ctx s) = false).
Proof.
  intros h s. unfold isDeployable, readWranglerConfig. unfold_M.
  destruct (template_platform (st_ctx s) =? "pages") eqn:Hp.
  - exists []. apply String.eqb_eq in Hp. cbn [fst snd].
    rewrite app_nil_r.
    split; [reflexivity | split; [reflexivity | left; now split]].
  - destruct (wranglerJsonExists h (st_ctx s)) eqn:Hex; unfold_M.
    + exists [EvWranglerJsonExists; EvReadWranglerJson].
      destruct (readWranglerJson h (st_ctx s)); cbn [fst snd st_ctx st_log];
        rewrite <- app_assoc;
        (split; [reflexivity | split; [reflexivity | right; left; now split]]).
    + exists [EvWranglerJsonExists; EvReadWranglerToml].
      destruct (readWranglerToml h (st_ctx s)) as [str|];
        [destruct (TOML_parse h (replace_crlf str))|];
        cbn [fst snd st_ctx st_log]; rewrite <- app_assoc;
        (split; [reflexivity | split; [reflexivity | right; right; now split]]).
Qed.

(** X3.  Off the pages platform a configuration that cannot be read or parsed is
    an error of [isDeployable], the collaborator's own exception: there is no
    default answer.  A JSON file that was read always gets an answer, since
    the JSONC parser does not throw. *)
Theorem isDeployable_config_errors :
  forall (h : Host) (s : State),
    template_platform (st_ctx s) <> "pages"%string ->
    (forall e, wranglerJsonExists h (st_ctx s) = true ->
       readWranglerJson h (st_ctx s) = Throw e ->
       fst (isDeployable h s) = Throw e)
    /\ (forall e, wranglerJsonExists h (st_ctx s) = false ->
       readWranglerToml h (st_ctx s) = Throw e ->
       fst (isDeployable h s) = Throw e)
    /\ (forall str e, wranglerJsonExists h (st_ctx s) = false ->
       readWranglerToml h (st_ctx s) = Ok str ->
       TOML_parse h (replace_crlf str) = Throw e ->
       fst (isDeployable h s) = Throw e)
    /\ (forall str, wranglerJsonExists h (st_ctx s) = true ->
       readWranglerJson h (st_ctx s) = Ok str ->
       exists b, fst (isDeployable h s) = Ok b).
Proof.
  intros h s Hp. apply String.eqb_neq in Hp.
  unfold isDeployable, readWranglerConfig. unfold_M. rewrite Hp.
  repeat split.
  - intros e -> Hr. unfold_M. now rewrite Hr.
  - intros e -> Hr. unfold_M. now rewrite Hr.
  - intros str e -> Hr Ht. unfold_M. now rewrite Hr, Ht.
  - intros str -> Hr. unfold_M. rewrite Hr. now eexists.
Qed.

Lemma isDeployable_config_errors_witness :
  fst (isDeployable (sample_host_config (Throw (HostError "ENOENT")))
         (sample_state (sample_ctx "workers" None None)))
  = Throw (HostError "ENOENT").
Proof.
  refine (proj1 (proj2 (isDeployable_config_errors
            (sample_host_config (Throw (HostError "ENOENT")))
            (sample_state (sample_ctx "workers" None None)) _))
            (HostError "ENOENT") eq_refl eq_refl).
  discriminate.
Defined.

(** X4.  [readWranglerConfig] hands the TOML parser LF line ends: a text whose
    lines hold no carriage return and are joined by CR LF is parsed as the
    same lines joined by LF, and a text without carriage returns is parsed as
    it is. *)
Theorem replace_crlf_lines :
  forall lines : list string,
    Forall (fun l => occurs (String CR "") l = false) lines ->
    replace_crlf (join (String CR (String LF "")) lines)
    = join (String LF "") lines.
Proof.
  induction lines as [|l rest IH]; intros Hall; [reflexivity|].
  inversion Hall as [|? ? Hl Hrest]; subst.
  destruct rest as [|l2 rest].
  - cbn [join String.concat]. now apply replace_crlf_no_CR.
  - change (join (String CR (String LF "")) (l :: l2 :: rest))
      with (l ++ String CR (String LF
                (join (String CR (String LF "")) (l2 :: rest))))%string.
    rewrite (replace_crlf_line _ _ Hl), (IH Hrest). reflexivity.
Qed.

Lemma replace_crlf_lines_witness :
  replace_crlf
    (join (String CR (String LF "")) ["name = x"; "[vars]"; ""]%string)
  = join (String LF "") ["name = x"; "[vars]"; ""]%string.
Proof.
  apply (replace_crlf_lines ["name = x"; "[vars]"; ""]%string).
  repeat constructor.
Defined.

(** ** Further properties of the output parsing in [runDeploy] *)

Section OutputFacts.

Local Open Scope string_scope.

(** Splitting at a one-character separator distributes over a text that is
    put together with that separator. *)
Lemma split_char_append (c : ascii) (a b : string) :
  split (String c "") (a ++ String c "" ++ b)
  = (split (String c "") a ++ split (String c "") b)%list.
Proof.
  assert (Hne : String c "" <> "") by discriminate.
  induction a as [ | x a E IH | t IH] using (split_induction (String c "") Hne).
  - exact (split_sep _ Hne b).
  - assert (E' : startsWith (String c "") (String x (a ++ String c "" ++ b))
                 = false).
    { cbn [startsWith] in *. exact E. }
    change (String x a ++ String c "" ++ b)
      with (String x (a ++ String c "" ++ b)).
    rewrite (split_step _ _ _ E'), (split_step _ _ _ E), IH.
    destruct (split (String c "") a) as [|p ps] eqn:Ea;
      [now apply split_nonempty in Ea | reflexivity].
  - rewrite append_assoc, !(split_sep _ Hne), IH. reflexivity.
Qed.

Lemma output_lines_clean_aux contents :
  Forall (fun l => truthy l = true /\ occurs (String LF "") l = false)
    (output_lines contents).
Proof.
  unfold output_lines. apply Forall_forall. intros l Hl.
  apply filter_In in Hl. destruct Hl as [Hin Ht]. split; [exact Ht|].
  pose proof (split_pieces (String LF "") ltac:(discriminate) contents) as H.
  rewrite Forall_forall in H. now apply H.
Qed.

End OutputFacts.

(** X5.  The lines handed to [JSON.parse] are the non-empty lines of the capture
    file: the lines of two texts joined by a line feed are the lines of the
    one followed by the lines of the other, so blank lines and a trailing
    line feed change nothing, and no line is empty or holds a line feed. *)
Theorem output_lines_append :
  forall a b : string,
    output_lines (a ++ String LF "" ++ b)
    = output_lines a ++ output_lines b
    /\ output_lines (a ++ String LF "") = output_lines a
    /\ output_lines (a ++ String LF (String LF b))
       = output_lines (a ++ String LF b)
    /\ Forall (fun l => truthy l = true /\ occurs (String LF "") l = false)
         (output_lines a).
Proof.
  assert (Happ : forall a b : string,
             output_lines (a ++ String LF "" ++ b)
             = output_lines a ++ output_lines b).
  { intros a b. unfold output_lines.
    now rewrite split_char_append, filter_app. }
  intros a b. split; [apply Happ | split; [|split]].
  - change (a ++ String LF "")%string with (a ++ String LF "" ++ "")%string.
    rewrite Happ. apply app_nil_r.
  - change (a ++ String LF (String LF b))%string
      with (a ++ String LF "" ++ (String LF b))%string.
    change (a ++ String LF b)%string with (a ++ String LF "" ++ b)%string.
    rewrite (Happ a (String LF b)), (Happ a b). reflexivity.
  - apply output_lines_clean_aux.
Qed.

(** X6.  [parse_entries] succeeds exactly when every line parses, with the
    parsed values in the order of the lines; otherwise it throws what
    [JSON.parse] threw on the first line that does not parse. *)
Theorem parse_entries_all_or_first_failure :
  forall (h : Host) (lines : list string),
    (forall vs, parse_entries h lines = Ok vs
                <-> Forall2 (fun l v => JSON_parse h l = Ok v) lines vs)
    /\ (forall pre l rest e,
          lines = pre ++ l :: rest ->
          Forall (fun x => exists v, JSON_parse h x = Ok v) pre ->
          JSON_parse h l = Throw e ->
          parse_entries h lines = Throw e).
Proof.
  intros h lines. split.
  - induction lines as [|l rest IH]; intros vs; cbn [parse_entries].
    + split; intros H; [inversion H; constructor | now inversion H].
    + destruct (JSON_parse h l) as [v|e] eqn:El; cbn [rbind].
      * destruct (parse_entries h rest) as [vs'|e'] eqn:Er; cbn [rbind].
        -- split; intros H.
           ++ inversion H; subst. constructor; [exact El | now apply IH].
           ++ inversion H as [|? v0 ? vs0 Hl Hr]; subst.
              rewrite El in Hl. inversion Hl; subst.
              apply IH in Hr. now inversion Hr.
        -- split; intros H; [discriminate|].
           inversion H as [|? v0 ? vs0 Hl Hr]; subst.
           apply IH in Hr. discriminate.
      * split; intros H; [discriminate|].
        inversion H as [|? v0 ? vs0 Hl Hr]; subst. congruence.
  - intros pre l rest e -> Hpre He.
    induction Hpre as [|x pre [v Hx] _ IH]; cbn [app parse_entries].
    + now rewrite He.
    + rewrite Hx. cbn [rbind]. now rewrite IH.
Qed.

Lemma parse_entries_all_or_first_failure_witness :
  parse_entries (sample_host None true)
    [line_deploy_foo; "{not json"; "also not json"]%string
  = Throw SyntaxError.
Proof.
  refine (proj2 (parse_entries_all_or_first_failure (sample_host None true)
                   [line_deploy_foo; "{not json"; "also not json"]%string)
            [line_deploy_foo] "{not json"%string ["also not json"%string]
            SyntaxError eq_refl _ eq_refl).
  constructor; [now eexists | constructor].
Defined.

(** ** Further properties of the extraction *)

Lemma find_type_skip ty e rest :
  nullish e = false -> typeIs ty e = false ->
  find_type ty (e :: rest) = find_type ty rest.
Proof.
  intros Hn Ht. destruct e as [ | | | | | | props]; try discriminate;
    try reflexivity.
  cbn [find_type getNamed rbind]. cbn [typeIs] in Ht.
  destruct (lookup "type" props) as [[ | | | | s | | ]|]; try reflexivity.
  now rewrite Ht.
Qed.

Lemma find_type_skip_all ty pre rest :
  Forall (fun e => nullish e = false /\ typeIs ty e = false) pre ->
  find_type ty (pre ++ rest) = find_type ty rest.
Proof.
  induction 1 as [|e pre [Hn Ht] _ IH]; [reflexivity|].
  cbn [app]. now rewrite (find_type_skip _ _ _ Hn Ht).
Qed.

(** X7.  A [null] entry (the JSON line [null]) that comes before the first
    "deploy" record makes the extraction fail, whatever follows it: the
    search reads [entry.type] of every entry it passes. *)
Theorem extraction_fails_on_null_entry :
  forall pre rest : list JSValue,
    Forall (fun e => nullish e = false /\ typeIs "deploy" e = false) pre ->
    find_type "deploy" (pre ++ JNull :: rest) = Throw TypeError
    /\ extractDeployedUrl (pre ++ JNull :: rest)
       = Throw (Error "Failed to find deployment url.").
Proof.
  intros pre rest Hpre.
  assert (H : find_type "deploy" (pre ++ JNull :: rest) = Throw TypeError).
  { now rewrite (find_type_skip_all _ _ _ Hpre). }
  split; [exact H|].
  unfold extractDeployedUrl, findDeployedUrl, extractUrl. now rewrite H.
Qed.

Lemma extraction_fails_on_null_entry_witness :
  extractDeployedUrl [record_pages_myproj; JNull; record_deploy_foo]
  = Throw (Error "Failed to find deployment url.").
Proof.
  refine (proj2 (extraction_fails_on_null_entry [record_pages_myproj]
                   [record_deploy_foo] _)).
  repeat constructor.
Defined.

(** X8.  The first "deploy" record that has a string as first target decides the
    extraction alone: the entries after it are not inspected (they may even
    be [null]), and when the target does not match the pattern no
    "pages-deploy" record is tried in its place. *)
Theorem first_deploy_target_decides :
  forall (pre rest : list JSValue) (props : list (string * JSValue))
         (s : string) (ts : list JSValue),
    Forall (fun e => nullish e = false /\ typeIs "deploy" e = false) pre ->
    lookup "type" props = Some (JString "deploy") ->
    lookup "targets" props = Some (JArray (JString s :: ts)) ->
    extractDeployedUrl (pre ++ JObject props :: rest)
    = match deployedUrlRegex_match s with
      | Some m => Ok m
      | None => Throw (Error "Failed to find deployment url.")
      end.
Proof.
  intros pre rest props s ts Hpre Hty Htg.
  apply extractDeployedUrl_string.
  unfold extractUrl. rewrite (find_type_skip_all _ _ _ Hpre).
  cbn [find_type getNamed rbind]. rewrite Hty. cbn [String.eqb Ascii.eqb].
  cbn. rewrite Htg. reflexivity.
Qed.

Lemma first_deploy_target_decides_witness :
  extractDeployedUrl
    [record_with_line_break;
     JObject [("type", JString "deploy");
              ("targets", JArray [JString "http://foo.workers.dev"])];
     record_pages_myproj; JNull]
  = Throw (Error "Failed to find deployment url.").
Proof.
  refine (first_deploy_target_decides [record_with_line_break]
            [record_pages_myproj; JNull]
            [("type", JString "deploy");
             ("targets", JArray [JString "http://foo.workers.dev"])]
            "http://foo.workers.dev" [] _ eq_refl eq_refl).
  repeat constructor.
Defined.

(** ** The match is the leftmost one, greedily extended *)

Section GreedyFacts.

Local Open Scope string_scope.

Lemma isDomainSuffix_length d :
  isDomainSuffix d -> (10 <= String.length d)%nat.
Proof. intros [-> | ->]; simpl; lia. Qed.

Lemma domain_at_unique s d d' :
  domain_at s = Some d -> isDomainSuffix d' -> startsWith d' s = true ->
  d' = d.
Proof.
  unfold domain_at. intros H [-> | ->] Hs.
  - rewrite Hs in H. now inversion H.
  - destruct (startsWith ".pages.dev" s) eqn:Ep.
    + exfalso. destruct s as [|a s]; [discriminate|].
      cbn [startsWith] in Hs, Ep.
      destruct ("." =? a)%char; [|discriminate]. cbn [andb] in Hs, Ep.
      destruct s as [|b s]; [discriminate|].
      cbn [startsWith] in Hs, Ep.
      destruct (Ascii.eqb_spec "w" b) as [<-|]; discriminate.
    + rewrite Hs in H. now inversion H.
Qed.

Lemma dotStar_domain_longest s m :
  dotStar_domain s = Some m ->
  forall mid d post,
    s = mid ++ d ++ post -> noLineTerminator mid = true -> isDomainSuffix d ->
    (String.length (mid ++ d) <= String.length m)%nat.
Proof.
  revert m. induction s as [|c s IH]; intros m Hm mid d post Hs Hmid Hd;
    [discriminate|].
  cbn [dotStar_domain] in Hm.
  destruct mid as [|c' mid].
  - cbn [append] in *.
    destruct (if isLineTerminator c then None else dotStar_domain s)
      as [m'|] eqn:Ei.
    + inversion Hm; subst m. clear Hm.
      destruct (isLineTerminator c); [discriminate|].
      destruct (dotStar_domain_sound _ _ Ei) as (mid' & d' & -> & _ & Hd' & Hp).
      pose proof (isDomainSuffix_length _ Hd') as Hl.
      cbn [String.length]. rewrite length_append.
      destruct Hd as [-> | ->]; [simpl; lia|].
      destruct mid' as [|x mid']; [|simpl; lia].
      cbn [append] in *. inversion Hs; subst.
      destruct Hd' as [-> | ->]; [discriminate | simpl; lia].
    + assert (Heq : d = m).
      { apply (domain_at_unique _ _ _ Hm Hd). rewrite Hs.
        apply startsWith_append. }
      subst. lia.
  - cbn [append] in Hs. inversion Hs; subst c' s.
    cbn [noLineTerminator] in Hmid. apply andb_true_iff in Hmid.
    destruct Hmid as [Hc Hmid]. apply negb_true_iff in Hc. rewrite Hc in Hm.
    destruct (dotStar_domain (mid ++ d ++ post)) as [m'|] eqn:Ei.
    + inversion Hm; subst m. cbn [append String.length].
      specialize (IH m' eq_refl mid d post eq_refl Hmid Hd). lia.
    + exfalso. now apply (dotStar_domain_complete mid d post Hmid Hd).
Qed.

Lemma deployedUrlRegex_at_longest s m m' :
  deployedUrlRegex_at s = Some m -> UrlShaped m' -> startsWith m' s = true ->
  (String.length m' <= String.length m)%nat.
Proof.
  unfold deployedUrlRegex_at.
  intros Hm (mid & d & -> & Hne & Hmid & Hd) Hs.
  apply startsWith_iff in Hs. destruct Hs as [post ->].
  rewrite !append_assoc in Hm.
  rewrite startsWith_append in Hm.
  change 8%nat with (String.length "https://") in Hm.
  rewrite drop_append in Hm.
  destruct mid as [|c mid]; [congruence|].
  cbn [append dotPlus_domain] in Hm.
  cbn [noLineTerminator] in Hmid. apply andb_true_iff in Hmid.
  destruct Hmid as [Hc Hmid]. apply negb_true_iff in Hc. rewrite Hc in Hm.
  destruct (dotStar_domain (mid ++ d ++ post)) as [m0|] eqn:E0;
    [|discriminate].
  inversion Hm; subst m.
  pose proof (dotStar_domain_longest _ _ E0 mid d post eq_refl Hmid Hd) as Hl.
  rewrite !length_append in *. cbn [String.length append] in *.
  rewrite ?length_append in *. lia.
Qed.

End GreedyFacts.

(** X9.  Which substring [String.prototype.match] returns for the pattern: the
    match reads [https://<mid>.pages.dev] or [https://<mid>.workers.dev] with
    a non-empty [<mid>] on one line; it starts at the leftmost position of
    the value where a URL of that shape starts, and from there it is the
    longest such URL (the [.+] is greedy). *)
Theorem deployedUrlRegex_match_leftmost_longest :
  forall v m : string,
    deployedUrlRegex_match v = Some m ->
    exists before after,
      v = (before ++ m ++ after)%string
      /\ UrlShaped m
      /\ (forall b' m' a',
            v = (b' ++ m' ++ a')%string -> UrlShaped m' ->
            (String.length before <= String.length b')%nat)
      /\ (forall m' a',
            v = (before ++ m' ++ a')%string -> UrlShaped m' ->
            (String.length m' <= String.length m)%nat).
Proof.
  intros v m Hm.
  pose proof (proj2 (deployedUrlRegex_match_sound v m Hm)) as Hshape.
  revert m Hm Hshape.
  induction v as [|c v IH]; intros m Hm Hshape; [discriminate|].
  cbn [deployedUrlRegex_match] in Hm.
  destruct (deployedUrlRegex_at (String c v)) as [m0|] eqn:Eat.
  - inversion Hm; subst m0.
    destruct (deployedUrlRegex_at_sound _ _ Eat) as [_ Hs].
    apply startsWith_iff in Hs. destruct Hs as [after Hafter].
    exists ""%string, after.
    split; [exact Hafter | split; [exact Hshape | split]].
    + intros; simpl; lia.
    + intros m' a' Hv Hsh. cbn [append] in Hv.
      apply (deployedUrlRegex_at_longest _ _ _ Eat Hsh).
      apply startsWith_iff. now exists a'.
  - destruct (IH m Hm Hshape) as (before & after & -> & _ & Hleft & Hlong).
    exists (String c before), after.
    split; [reflexivity | split; [exact Hshape | split]].
    + intros b' m' a' Hv Hsh. destruct b' as [|x b'].
      * exfalso. cbn [append] in Hv.
        destruct Hsh as (mid & d & -> & Hne & Hmid & Hd).
        rewrite !append_assoc in Hv. rewrite Hv in Eat.
        now apply (deployedUrlRegex_at_complete mid d a' Hne Hmid Hd).
      * cbn [append] in Hv. inversion Hv; subst.
        cbn [String.length]. apply le_n_S. eapply Hleft; eauto.
    + intros m' a' Hv Hsh. cbn [append] in Hv. inversion Hv.
      eapply Hlong; eauto.
Qed.

Lemma deployedUrlRegex_match_leftmost_longest_witness :
  exists before after,
    "x https://a.pages.dev/b.workers.dev https://c.pages.dev"%string
    = (before ++ "https://a.pages.dev/b.workers.dev https://c.pages.dev"
         ++ after)%string
    /\ UrlShaped "https://a.pages.dev/b.workers.dev https://c.pages.dev"
    /\ (String.length before <= 2)%nat.
Proof.
  destruct (deployedUrlRegex_match_leftmost_longest
              "x https://a.pages.dev/b.workers.dev https://c.pages.dev"
              "https://a.pages.dev/b.workers.dev https://c.pages.dev" eq_refl)
    as (before & after & Hv & Hshape & Hleft & _).
  exists before, after. split; [exact Hv | split; [exact Hshape|]].
  apply (Hleft "x "%string "https://a.pages.dev"%string
           "/b.workers.dev https://c.pages.dev"%string eq_refl).
  exists "a"%string, ".pages.dev"%string.
  repeat split; [discriminate | now left].
Defined.

(** ** Further properties of [runDeploy] *)

(** X10.  [runDeploy] does nothing without an account id -- absent or empty, it
    throws "Failed to read Cloudflare account." with the state untouched and
    no command run -- and when the deploy command itself rejects, that
    exception is passed on as it is (it is not turned into the URL error),
    the capture file is not read and the context is unchanged. *)
Theorem runDeploy_stops_before_reading :
  forall (h : Host) (s : State),
    (account_id (st_ctx s) = None \/ account_id (st_ctx s) = Some ""%string ->
       runDeploy h s
       = (Throw (Error "Failed to read Cloudflare account."), s))
    /\ (forall id e,
          account_id (st_ctx s) = Some id -> truthy id = true ->
          runCommand h (deployCmd h (st_ctx s)) (project_path (st_ctx s))
            (deployEnv h id) = Throw e ->
          runDeploy h s
          = (Throw e,
             {| st_ctx := st_ctx s;
                st_log := st_log s
                  ++ [EvRunCommand (deployCmd h (st_ctx s))
                        (project_path (st_ctx s)) (deployEnv h id)] |})).
Proof.
  intros h s. split.
  - intros [H | H]; unfold runDeploy; unfold_M; now rewrite H.
  - intros id e Hid Ht Hrun. unfold runDeploy. unfold_M.
    rewrite Hid, Ht. cbn [negb]. now rewrite Hrun.
Qed.

Lemma runDeploy_stops_before_reading_witness :
  fst (runDeploy (sample_host_config (Ok "name = x"%string))
         (sample_state (sample_ctx "workers" None None)))
  = Throw (HostError "exit 1").
Proof.
  rewrite (proj2 (runDeploy_stops_before_reading
                    (sample_host_config (Ok "name = x"%string))
                    (sample_state (sample_ctx "workers" None None)))
             "account-1"%string (HostError "exit 1") eq_refl eq_refl eq_refl).
  reflexivity.
Defined.


(** A successful [runDeploy] leaves the normalization of a URL of the
    pattern's shape in the context. *)
Lemma runDeploy_success_url h s :
  fst (runDeploy h s) = Ok tt ->
  exists m u,
    UrlShaped m /\ normalizePagesUrl m = Ok u
    /\ st_ctx (snd (runDeploy h s)) = set_deployment_url (st_ctx s) u.
Proof.
  destruct (account_id (st_ctx s)) as [id|] eqn:Hid.
  2:{ unfold runDeploy. unfold_M. rewrite Hid. discriminate. }
  destruct (truthy id) eqn:Ht.
  2:{ unfold runDeploy. unfold_M. rewrite Hid, Ht. discriminate. }
  destruct (runCommand h (deployCmd h (st_ctx s)) (project_path (st_ctx s))
              (deployEnv h id)) as [fs|e] eqn:Hrun.
  2:{ unfold runDeploy. unfold_M. rewrite Hid, Ht. cbn [negb].
      rewrite Hrun. discriminate. }
  rewrite (runDeploy_after_command h s id fs Hid Ht Hrun). cbv zeta.
  destruct (deployOutcome h fs) as [m|e] eqn:Hout; [|discriminate].
  pose proof (deployOutcome_shaped h fs m Hout) as Hshape.
  unfold normalizePagesUrl.
  destruct (endsWith m ".pages.dev") eqn:He.
  - destruct (removeSha1 m) as [u|e] eqn:Hu; [|discriminate].
    intros _. exists m, u. rewrite He. auto.
  - intros _. exists m, m. rewrite He. auto.
Qed.

Lemma normalize_shaped_https m u :
  UrlShaped m -> normalizePagesUrl m = Ok u ->
  startsWith "https://" u = true.
Proof.
  intros (mid & d & -> & _) H. unfold normalizePagesUrl in H.
  destruct (endsWith _ ".pages.dev").
  - change ("https://" ++ mid ++ d)%string
      with ("https" ++ "://" ++ (mid ++ d))%string in H.
    pose proof (split_append_sep "://" scheme_sep_nonempty
                  border_free_scheme_sep "https" (mid ++ d)%string eq_refl)
      as E.
    destruct (split "://" (mid ++ d)) as [|x xs] eqn:Ex;
      [now apply (split_nonempty "://") in Ex|].
    rewrite (removeSha1_pieces _ _ _ _ E) in H. inversion H. reflexivity.
  - inversion H; subst. reflexivity.
Qed.

(** X12.  After a successful [runDeploy] the stored URL starts with [https://], so
    it is not empty, and [maybeOpenBrowser] run next polls exactly that URL;
    it then opens it when the poll succeeds and [ctx.args.open] is set. *)
Theorem runDeploy_then_maybeOpenBrowser :
  forall (h h' : Host) (s : State),
    fst (runDeploy h s) = Ok tt ->
    exists u,
      deployment_url (st_ctx (snd (runDeploy h s))) = Some u
      /\ startsWith "https://" u = true
      /\ maybeOpenBrowser h' (snd (runDeploy h s))
         = (Ok tt,
            {| st_ctx := st_ctx (snd (runDeploy h s));
               st_log := st_log (snd (runDeploy h s))
                 ++ EvPoll u
                    :: (if poll h' u
                        then match args_open (st_ctx s) with
                             | Some true => [EvOpenInBrowser u]
                             | _ => []
                             end
                        else []) |}).
Proof.
  intros h h' s Hok.
  destruct (runDeploy_success_url h s Hok) as (m & u & Hshape & Hnorm & Hctx).
  pose proof (normalize_shaped_https m u Hshape Hnorm) as Hhttps.
  assert (Ht : truthy u = true) by (destruct u; [discriminate | reflexivity]).
  exists u. revert Hctx. generalize (snd (runDeploy h s)). intros [c l] Hctx.
  cbn [st_ctx st_log] in *. subst c.
  split; [reflexivity | split; [exact Hhttps|]].
  unfold maybeOpenBrowser. unfold_M.
  cbn [deployment_url set_deployment_url args_open].
  rewrite Ht. unfold_M.
  destruct (poll h' u); [|reflexivity].
  destruct (args_open (st_ctx s)) as [[|]|]; unfold_M;
    rewrite <- ?app_assoc; reflexivity.
Qed.

Lemma runDeploy_then_maybeOpenBrowser_witness :
  exists u,
    deployment_url
      (st_ctx (snd (runDeploy (sample_host (Some line_pages_myproj) true)
                      (sample_state (sample_ctx "pages" None (Some true))))))
    = Some u
    /\ startsWith "https://" u = true.
Proof.
  destruct (runDeploy_then_maybeOpenBrowser
              (sample_host (Some line_pages_myproj) true)
              (sample_host None true)
              (sample_state (sample_ctx "pages" None (Some true))) eq_refl)
    as (u & Hu & Hs & _).
  now exists u.
Defined.

(** ** Further properties of the URL normalization *)

Lemma slice_last_three {A : Type} (l : list A) (a b d : A) :
  l <> [] -> slice_last 3 (l ++ [a; b]) = [last l d; a; b].
Proof.
  intros Hl. destruct (exists_last Hl) as (l' & z & ->).
  rewrite last_last, <- app_assoc. cbn [app].
  unfold slice_last. rewrite length_app. cbn [List.length].
  replace (List.length l' + 3 - 3)%nat with (List.length l' + 0)%nat by lia.
  rewrite skipn_app, skipn_all2 by lia.
  replace (List.length l' + 0 - List.length l')%nat with 0%nat by lia.
  reflexivity.
Qed.

(** X13.  However many labels come before [.pages.dev], normalization keeps the
    last of them: for a host [<x>.pages.dev] the normalized host is
    [<label>.pages.dev], where [<label>] is what follows the last dot of
    [<x>] (all of [<x>] when it has no dot).  A production URL
    [<project>.pages.dev] is therefore left as it is, and the result still
    ends in [.pages.dev]. *)
Theorem normalizePagesUrl_keeps_project_label :
  forall proto x : string,
    occurs "://" proto = false ->
    occurs "://" (x ++ ".pages.dev") = false ->
    normalizePagesUrl (proto ++ "://" ++ x ++ ".pages.dev")
    = Ok (proto ++ "://" ++ last (split "." x) ""%string ++ ".pages.dev")%string
    /\ (occurs "." x = false ->
        normalizePagesUrl (proto ++ "://" ++ x ++ ".pages.dev")
        = Ok (proto ++ "://" ++ x ++ ".pages.dev")%string).
Proof.
  intros proto x Hp Hh.
  assert (H : normalizePagesUrl (proto ++ "://" ++ x ++ ".pages.dev")
              = Ok (proto ++ "://" ++ last (split "." x) ""%string
                      ++ ".pages.dev")%string).
  { unfold normalizePagesUrl.
    rewrite (endsWith_url proto (x ++ ".pages.dev") ".pages.dev")
      by (apply endsWith_iff; now exists x).
    rewrite (removeSha1_pieces _ proto (x ++ ".pages.dev")%string [])
      by now apply split_url.
    change (x ++ ".pages.dev")%string
      with (x ++ String "." "" ++ "pages.dev")%string.
    rewrite split_char_append.
    change (split (String "." "") "pages.dev") with ["pages"; "dev"]%string.
    rewrite (slice_last_three _ _ _ ""%string) by apply split_nonempty.
    reflexivity. }
  split; [exact H|].
  intros Hx. rewrite H. now rewrite (split_no_occurrence "." x Hx).
Qed.

Lemma normalizePagesUrl_keeps_project_label_witness :
  normalizePagesUrl "https://feature-x.abcd1234.myproj.pages.dev"
  = Ok "https://myproj.pages.dev"
  /\ normalizePagesUrl "https://myproj.pages.dev"
     = Ok "https://myproj.pages.dev".
Proof.
  split.
  - exact (proj1 (normalizePagesUrl_keeps_project_label "https"
                    "feature-x.abcd1234.myproj" eq_refl eq_refl)).
  - exact (proj2 (normalizePagesUrl_keeps_project_label "https" "myproj"
                    eq_refl eq_refl) eq_refl).
Defined.

(** ** Properties of [offerToDeploy] *)

(** X14.  The prompt is asked exactly once, after the deployability check: when the
    project is not deployable the prompt is handed [false] for
    [ctx.args.deploy], whatever the operator had passed, right after the
    status line about bindings; when it is deployable the operator's value is
    handed on untouched and no status line is shown.  Everything that follows
    the prompt is a login or an account choice. *)
Theorem offerToDeploy_prompt_argument :
  forall (h : Host) (oh : OfferHost) (s : OfferState) (d : bool)
         (gate : State),
    isDeployable h {| st_ctx := of_ctx s; st_log := [] |} = (Ok d, gate) ->
    exists rest,
      of_log (snd (offerToDeploy h oh s))
      = (of_log s ++ [EvStartSection "Deploy with Cloudflare" "Step 3 of 3"]
         ++ map EvGate (st_log gate)
         ++ (if d then [] else [EvUpdateStatus (bindings_status oh)]))
        ++ EvProcessArgument (if d then of_args_deploy s else Some false)
             (deploy_label h oh (of_ctx s)) (C3_DEFAULTS_deploy oh)
           :: rest
      /\ forallb isLoginOrAccount rest = true.
Proof.
  intros h oh s d gate Hgate. unfold offerToDeploy. rewrite Hgate.
  set (arg := if d then of_args_deploy s else Some false).
  set (label := deploy_label h oh (of_ctx s)).
  assert (Hlog :
    (if d
     then (of_log s ++ [EvStartSection "Deploy with Cloudflare" "Step 3 of 3"])
          ++ map EvGate (st_log gate)
     else ((of_log s
            ++ [EvStartSection "Deploy with Cloudflare" "Step 3 of 3"])
           ++ map EvGate (st_log gate))
          ++ [EvUpdateStatus (bindings_status oh)])
    = of_log s ++ [EvStartSection "Deploy with Cloudflare" "Step 3 of 3"]
      ++ map EvGate (st_log gate)
      ++ (if d then [] else [EvUpdateStatus (bindings_status oh)])).
  { destruct d; rewrite <- ?app_assoc; cbn [app]; rewrite ?app_nil_r;
      reflexivity. }
  rewrite Hlog.
  destruct (processArgument oh arg label (C3_DEFAULTS_deploy oh))
    as [[should arg']|e].
  - destruct should; cbn [negb].
    + destruct (wranglerLogin oh (clear_deployment (of_ctx s)))
        as [[login ctx2]|e].
      * destruct login; cbn [negb].
        -- destruct (chooseAccount oh ctx2);
             exists [EvWranglerLogin; EvChooseAccount]; cbn [snd of_log];
             rewrite <- !app_assoc; cbn [app]; now split.
        -- exists [EvWranglerLogin]. cbn [snd of_log].
           rewrite <- !app_assoc. now split.
      * exists [EvWranglerLogin]. cbn [snd of_log].
        rewrite <- !app_assoc. now split.
    + exists []. now split.
  - exists []. now split.
Qed.

Lemma offerToDeploy_prompt_argument_witness :
  exists rest,
    of_log (snd (offerToDeploy
                   (sample_host_tree (JObject [("bindings", JArray [])]))
                   (sample_offer_host true true)
                   (sample_offer_state "workers" (Some true))))
    = [EvStartSection "Deploy with Cloudflare" "Step 3 of 3";
       EvGate EvWranglerJsonExists; EvGate EvReadWranglerToml;
       EvUpdateStatus (bindings_status (sample_offer_host true true));
       EvProcessArgument (Some false) "deploy via `npm run deploy`" true]
      ++ rest.
Proof.
  destruct (offerToDeploy_prompt_argument
              (sample_host_tree (JObject [("bindings", JArray [])]))
              (sample_offer_host true true)
              (sample_offer_state "workers" (Some true))
              false _ eq_refl) as (rest & Hlog & _).
  exists rest. exact Hlog.
Defined.


(** X16.  When the operator declines, [offerToDeploy] answers [false] and goes no
    further: the context, its deployment record included, is as before, and
    there is no login and no account choice.  When the operator accepts and
    the login does not succeed, it answers [false] too, without choosing an
    account. *)
Theorem offerToDeploy_declined_or_login_failed :
  forall (h : Host) (oh : OfferHost) (s : OfferState) (d : bool)
         (gate : State),
    isDeployable h {| st_ctx := of_ctx s; st_log := [] |} = (Ok d, gate) ->
    (forall arg',
        processArgument oh (if d then of_args_deploy s else Some false)
          (deploy_label h oh (of_ctx s)) (C3_DEFAULTS_deploy oh)
        = Ok (false, arg') ->
        fst (offerToDeploy h oh s) = Ok false
        /\ of_ctx (snd (offerToDeploy h oh s)) = of_ctx s
        /\ of_args_deploy (snd (offerToDeploy h oh s)) = arg'
        /\ forall e, In e (of_log (snd (offerToDeploy h oh s))) ->
             isLoginOrAccount e = true -> In e (of_log s))
    /\ (forall arg' ctx2,
        processArgument oh (if d then of_args_deploy s else Some false)
          (deploy_label h oh (of_ctx s)) (C3_DEFAULTS_deploy oh)
        = Ok (true, arg') ->
        wranglerLogin oh (clear_deployment (of_ctx s)) = Ok (false, ctx2) ->
        fst (offerToDeploy h oh s) = Ok false
        /\ of_ctx (snd (offerToDeploy h oh s)) = ctx2
        /\ forall e, In e (of_log (snd (offerToDeploy h oh s))) ->
             e = EvChooseAccount -> In e (of_log s)).
Proof.
  intros h oh s d gate Hgate. unfold offerToDeploy. rewrite Hgate. split.
  - intros arg' Hp. rewrite Hp. cbn [negb fst snd of_ctx of_args_deploy of_log].
    repeat split. intros e Hin He.
    rewrite !in_app_iff in Hin.
    destruct Hin as [Hin | [<- | []]]; [|discriminate].
    destruct d.
    + rewrite !in_app_iff in Hin. destruct Hin as [[Hin | [<- | []]] | Hin];
        [exact Hin | discriminate |].
      apply in_map_iff in Hin. destruct Hin as (x & <- & _). discriminate.
    + rewrite !in_app_iff in Hin.
      destruct Hin as [[[Hin | [<- | []]] | Hin] | [<- | []]];
        [exact Hin | discriminate | | discriminate].
      apply in_map_iff in Hin. destruct Hin as (x & <- & _). discriminate.
  - intros arg' ctx2 Hp Hl. rewrite Hp. cbn [negb]. rewrite Hl.
    cbn [negb fst snd of_ctx of_log]. repeat split. intros e Hin ->.
    rewrite !in_app_iff in Hin.
    destruct Hin as [[Hin | [Hin | []]] | [Hin | []]]; try discriminate.
    destruct d.
    + rewrite !in_app_iff in Hin. destruct Hin as [[Hin | [Hin | []]] | Hin];
        [exact Hin | discriminate |].
      apply in_map_iff in Hin. destruct Hin as (x & Hx & _). discriminate.
    + rewrite !in_app_iff in Hin.
      destruct Hin as [[[Hin | [Hin | []]] | Hin] | [Hin | []]];
        [exact Hin | discriminate | | discriminate].
      apply in_map_iff in Hin. destruct Hin as (x & Hx & _). discriminate.
Qed.

Lemma offerToDeploy_declined_or_login_failed_witness :
  fst (offerToDeploy (sample_host_tree (JObject [("name", JString "x")]))
         (sample_offer_host false true)
         (sample_offer_state "workers" None))
  = Ok false
  /\ deployment_url
       (of_ctx (snd (offerToDeploy
                       (sample_host_tree (JObject [("name", JString "x")]))
                       (sample_offer_host false true)
                       (sample_offer_state "workers" None))))
     = Some "https://old.pages.dev"%string.
Proof.
  destruct (proj1 (offerToDeploy_declined_or_login_failed
              (sample_host_tree (JObject [("name", JString "x")]))
              (sample_offer_host false true)
              (sample_offer_state "workers" None) true _ eq_refl)
              (Some false) eq_refl) as (Hr & Hctx & _).
  split; [exact Hr|]. rewrite Hctx. reflexivity.
Defined.

(** ** Properties of [getDevtoolsIframeUrl] *)

Section UrlencodeFacts.

Local Open Scope string_scope.


Lemma allChars_append P a b :
  allChars P (a ++ b) = allChars P a && allChars P b.
Proof.
  induction a as [|c a IH]; [reflexivity|].
  cbn [append allChars]. now rewrite IH, andb_assoc.
Qed.

Lemma occurs_char_append c a b :
  occurs (String c "") (a ++ b)
  = occurs (String c "") a || occurs (String c "") b.
Proof.
  induction a as [|x a IH].
  - cbn [append]. reflexivity.
  - cbn [append]. rewrite !(occurs_cons (String c "")), IH.
    cbn [startsWith]. now rewrite orb_assoc.
Qed.

Lemma allChars_no_occurrence P c s :
  allChars P s = true -> P c = false -> occurs (String c "") s = false.
Proof.
  intros Hs Hc. induction s as [|x s IH]; [reflexivity|].
  cbn [allChars] in Hs. apply andb_true_iff in Hs. destruct Hs as [Hx Hs].
  rewrite (occurs_cons (String c "")), (IH Hs). cbn [startsWith].
  destruct (Ascii.eqb_spec c x) as [->|]; [congruence | reflexivity].
Qed.

Lemma urlencodeChar_output c :
  allChars isUrlencodedOutput (urlencodeChar c) = true.
Proof. destruct c as [[] [] [] [] [] [] [] []]; reflexivity. Qed.



Lemma urlencode_output s : allChars isUrlencodedOutput (urlencode s) = true.
Proof.
  induction s as [|c s IH]; [reflexivity|].
  cbn [urlencode]. now rewrite allChars_append, urlencodeChar_output, IH.
Qed.


Lemma getAll_filter_other name name' ps :
  name' <> name ->
  getAll name' (filter (fun kv => negb (fst kv =? name)) ps) = getAll name' ps.
Proof.
  intros Hne. unfold getAll. induction ps as [|[k v] ps IH]; [reflexivity|].
  cbn [filter fst]. destruct (k =? name) eqn:Ek; cbn [negb filter fst].
  - apply String.eqb_eq in Ek. subst k.
    apply String.eqb_neq in Hne. rewrite String.eqb_sym in Hne.
    now rewrite Hne.
  - destruct (k =? name'); cbn [map snd]; now rewrite IH.
Qed.

Lemma getAll_filter_same name ps :
  getAll name (filter (fun kv => negb (fst kv =? name)) ps) = [].
Proof.
  unfold getAll. induction ps as [|[k v] ps IH]; [reflexivity|].
  cbn [filter fst]. destruct (k =? name) eqn:Ek; cbn [negb filter fst];
    [exact IH|]. now rewrite Ek.
Qed.

Lemma getAll_cons name k v ps :
  getAll name ((k, v) :: ps)
  = if k =? name then v :: getAll name ps else getAll name ps.
Proof. unfold getAll. cbn [filter fst]. now destruct (k =? name). Qed.

Lemma getAll_setParam_same name value ps :
  getAll name (setParam name value ps) = [value].
Proof.
  induction ps as [|[k v] ps IH].
  - cbn [setParam]. now rewrite getAll_cons, String.eqb_refl.
  - cbn [setParam]. destruct (k =? name) eqn:Ek.
    + now rewrite getAll_cons, String.eqb_refl, getAll_filter_same.
    + now rewrite getAll_cons, Ek.
Qed.

Lemma getAll_setParam_other name name' value ps :
  name' <> name ->
  getAll name' (setParam name value ps) = getAll name' ps.
Proof.
  intros Hne. pose proof Hne as Hb. apply String.eqb_neq in Hb.
  rewrite String.eqb_sym in Hb.
  induction ps as [|[k v] ps IH].
  - cbn [setParam]. now rewrite getAll_cons, Hb.
  - cbn [setParam]. destruct (k =? name) eqn:Ek.
    + apply String.eqb_eq in Ek. subst k.
      rewrite !getAll_cons, Hb. now apply getAll_filter_other.
    + rewrite !getAll_cons. now rewrite IH.
Qed.

End UrlencodeFacts.

Lemma devtools_query_default (inspectorUrl : string) :
  serializeParams (devtoolsParams [] inspectorUrl)
  = ("wss=" ++ urlencode (drop 5 inspectorUrl)
     ++ "&theme=systemPreferred&domain=workers+playground")%string.
Proof.
  unfold serializeParams, devtoolsParams. cbn.
  now rewrite !append_assoc.
Qed.

(** X17.  For a devtools address without parameters of its own, the frame URL is
    that address followed by exactly three parameters, [wss], [theme] and
    [domain], whatever the inspector URL holds: its characters are
    percent-encoded, so none of them can end the [wss] value or start a
    further parameter. *)
Theorem getDevtoolsIframeUrl_three_parameters :
  forall (env : option string) (parseURL : string -> Result URL)
         (inspectorUrl base : string) (frag : option string),
    parseURL (devToolsUrl env)
    = Ok {| url_base := base; url_params := []; url_fragment := frag |} ->
    exists query,
      getDevtoolsIframeUrl env parseURL inspectorUrl
      = Ok (base ++ "?" ++ query
            ++ match frag with Some f => "#" ++ f | None => "" end)%string
      /\ split "&" query
         = [("wss=" ++ urlencode (drop 5 inspectorUrl))%string;
            "theme=systemPreferred"%string;
            "domain=workers+playground"%string]
      /\ split "=" ("wss=" ++ urlencode (drop 5 inspectorUrl))
         = ["wss"%string; urlencode (drop 5 inspectorUrl)].
Proof.
  intros env parseURL inspectorUrl base frag Hparse.
  exists (serializeParams (devtoolsParams [] inspectorUrl)).
  pose proof (urlencode_output (drop 5 inspectorUrl)) as Hout.
  split; [|split].
  - unfold getDevtoolsIframeUrl. rewrite Hparse. cbn [rbind url_base
      url_params url_fragment]. unfold URL_toString.
    cbn [url_base url_params url_fragment].
    destruct (devtoolsParams [] inspectorUrl) eqn:E; [discriminate|].
    rewrite <- E. now rewrite !append_assoc.
  - rewrite devtools_query_default.
    change ("wss=" ++ urlencode (drop 5 inspectorUrl)
            ++ "&theme=systemPreferred&domain=workers+playground")%string
      with ("wss=" ++ urlencode (drop 5 inspectorUrl) ++ String "&" ""
            ++ "theme=systemPreferred&domain=workers+playground")%string.
    rewrite <- append_assoc.
    rewrite split_char_append.
    rewrite (split_no_occurrence "&").
    + reflexivity.
    + rewrite occurs_char_append.
      now rewrite (allChars_no_occurrence _ "&"%char _ Hout eq_refl).
  - change ("wss=" ++ urlencode (drop 5 inspectorUrl))%string
      with ("wss" ++ String "=" "" ++ urlencode (drop 5 inspectorUrl))%string.
    rewrite split_char_append.
    rewrite (split_no_occurrence "=" (urlencode (drop 5 inspectorUrl))).
    + reflexivity.
    + exact (allChars_no_occurrence _ "="%char _ Hout eq_refl).
Qed.

Lemma getDevtoolsIframeUrl_three_parameters_witness :
  exists query,
    getDevtoolsIframeUrl None sample_parseURL "wss://h/ws?a=1&theme=dark#x"
    = Ok ("https://devtools.devprod.cloudflare.dev/js_app"
          ++ "?" ++ query ++ "")%string
    /\ List.length (split "&" query) = 3%nat.
Proof.
  destruct (getDevtoolsIframeUrl_three_parameters None sample_parseURL
              "wss://h/ws?a=1&theme=dark#x"
              "https://devtools.devprod.cloudflare.dev/js_app" None eq_refl)
    as (query & Hurl & Hsplit & _).
  exists query. split; [exact Hurl|]. now rewrite Hsplit.
Defined.




(** X19.  Whatever parameters the devtools address already carries, after the
    three [set] calls each of [wss], [theme] and [domain] occurs exactly once,
    with the value set, and the values of every other parameter are as they
    were. *)
Theorem devtoolsParams_set_once :
  forall (ps : list (string * string)) (inspectorUrl : string),
    getAll "wss" (devtoolsParams ps inspectorUrl) = [drop 5 inspectorUrl]
    /\ getAll "theme" (devtoolsParams ps inspectorUrl)
       = ["systemPreferred"%string]
    /\ getAll "domain" (devtoolsParams ps inspectorUrl)
       = ["workers playground"%string]
    /\ forall name,
         name <> "wss"%string -> name <> "theme"%string ->
         name <> "domain"%string ->
         getAll name (devtoolsParams ps inspectorUrl) = getAll name ps.
Proof.
  intros ps i. unfold devtoolsParams. repeat split.
  - rewrite !getAll_setParam_other by discriminate.
    apply getAll_setParam_same.
  - rewrite getAll_setParam_other by discriminate.
    apply getAll_setParam_same.
  - apply getAll_setParam_same.
  - intros name H1 H2 H3. now rewrite !getAll_setParam_other.
Qed.

(** ** The exceptions of the normalization and of [runDeploy] *)

Lemma split_single_no_occurrence sep s x :
  sep <> ""%string -> split sep s = [x] -> occurs sep s = false.
Proof.
  intros Hne H. pose proof (join_split sep Hne s) as J.
  pose proof (split_pieces sep Hne s) as P. rewrite H in J, P.
  cbn in J. subst x. now inversion P.
Qed.

(** X20.  Lines 157-160 throw exactly on a text without "://": the destructuring
    then leaves [hostname] undefined.  With a "://" they return. *)
Theorem removeSha1_throws_iff :
  forall url : string,
    (removeSha1 url = Throw TypeError <-> occurs "://" url = false)
    /\ ((exists u, removeSha1 url = Ok u) <-> occurs "://" url = true).
Proof.
  intros url.
  assert (H : removeSha1 url = Throw TypeError <-> occurs "://" url = false).
  { unfold removeSha1. split.
    - destruct (split "://" url) as [|p [|hn rest]] eqn:E; try discriminate.
      + now apply (split_nonempty "://") in E.
      + intros _. exact (split_single_no_occurrence _ _ _
                           scheme_sep_nonempty E).
    - intros Ho. now rewrite (split_no_occurrence "://" url Ho). }
  split; [exact H|]. split.
  - intros [u Hu]. destruct (occurs "://" url) eqn:Ho; [reflexivity|].
    rewrite (proj2 H eq_refl) in Hu. discriminate.
  - intros Ho. unfold removeSha1 in *.
    destruct (split "://" url) as [|p [|hn rest]] eqn:E.
    + now apply (split_nonempty "://") in E.
    + rewrite (split_single_no_occurrence _ _ _ scheme_sep_nonempty E) in Ho.
      discriminate.
    + now eexists.
Qed.

(** X21.  Once the deploy command has returned, [runDeploy] can only fail with
    "Failed to find deployment url.", and it fails exactly when the lines of
    the capture file give no URL.  In particular the normalization at the end
    never throws in a run: the URL it works on was matched by the pattern and
    so contains "://". *)
Theorem runDeploy_exception_after_command :
  forall (h : Host) (s : State) (id : string) (fs : string -> option string),
    account_id (st_ctx s) = Some id -> truthy id = true ->
    runCommand h (deployCmd h (st_ctx s)) (project_path (st_ctx s))
      (deployEnv h id) = Ok fs ->
    (forall e, fst (runDeploy h s) = Throw e ->
               e = Error "Failed to find deployment url.")
    /\ (fst (runDeploy h s) = Ok tt <-> exists m, deployOutcome h fs = Ok m).
Proof.
  intros h s id fs Hid Ht Hrun.
  rewrite (runDeploy_after_command h s id fs Hid Ht Hrun). cbv zeta.
  destruct (deployOutcome h fs) as [m|e'] eqn:Hout.
  - destruct (removeSha1_shaped m (deployOutcome_shaped h fs m Hout))
      as [u Hu].
    rewrite Hu. split.
    + intros e. destruct (endsWith m ".pages.dev"); discriminate.
    + split; [now exists m|].
      intros _. now destruct (endsWith m ".pages.dev").
  - split.
    + intros e H. now inversion H.
    + split; [discriminate | intros [m Hm]; discriminate].
Qed.

Lemma runDeploy_exception_after_command_witness :
  fst (runDeploy (sample_host (Some line_pages_myproj) true)
         (sample_state (sample_ctx "pages" None None)))
  = Ok tt
  /\ forall e,
       fst (runDeploy (sample_host None true)
              (sample_state (sample_ctx "workers" None None)))
       = Throw e ->
       e = Error "Failed to find deployment url.".
Proof.
  split.
  - refine (proj2 (proj2 (runDeploy_exception_after_command
             (sample_host (Some line_pages_myproj) true)
             (sample_state (sample_ctx "pages" None None))
             "account-1" _ eq_refl eq_refl eq_refl)) _).
    now eexists.
  - exact (proj1 (runDeploy_exception_after_command
             (sample_host None true)
             (sample_state (sample_ctx "workers" None None))
             "account-1" _ eq_refl eq_refl eq_refl)).
Defined.

Lemma devtoolsParams_set_once_witness :
  getAll "theme"
    (devtoolsParams [("theme", "dark"); ("x", "1"); ("theme", "light")]
       "wss://h/ws")
  = ["systemPreferred"%string]
  /\ getAll "x"
       (devtoolsParams [("theme", "dark"); ("x", "1"); ("theme", "light")]
          "wss://h/ws")
     = ["1"%string].
Proof.
  destruct (devtoolsParams_set_once
              [("theme", "dark"); ("x", "1"); ("theme", "light")]%string
              "wss://h/ws") as (_ & Htheme & _ & Hother).
  split; [exact Htheme|].
  rewrite (Hother "x"%string) by discriminate. reflexivity.
Defined.
